(** * awq/models/mixtral.py: the Mixtral adapter of the AWQ quantizer

    A shallow embedding of [awq/models/mixtral.py] and the properties of
    its functions: the version guard [_transformers_version_check], the
    static methods [get_model_layers], [get_act_for_scaling],
    [get_moe_for_scaling] and [get_layers_for_scaling] of
    [MixtralAWQForCausalLM], and [MixtralFuser.fuse_transformer].

    Python objects live in a store ([heap]); a reference is an index into
    it.  Functions of the adapter are written in a state-and-exception
    monad over that store, so that reads, allocations and attribute
    assignments appear where the source has them.  The fused modules and
    [state_dict] belong to other files: they are parameters of the
    fuser.  *)

From Stdlib Require Import ZArith String Ascii DecimalString DecimalNat
  DecimalFacts.
From stdpp Require Import base option list gmap strings.

Local Open Scope string_scope.
Local Open Scope Z_scope.

(** ** Exceptions *)

(** The exception classes that the adapter and the operations it uses can
    raise.  [Exception msg] is the plain [Exception] of line 23. *)
Inductive exn : Type :=
| AttributeError
| KeyError
| TypeError
| ValueError
| StopIteration
| Exception (msg : string).

(** Outcome of a computation: normal return or a raised exception. *)
Inductive result (A : Type) : Type :=
| Ok (a : A)
| Raise (e : exn).
Arguments Ok {A} a.
Arguments Raise {A} e.

(** ** The version guard (lines 14-23) *)

Module Version.

(** [str.split('.')]: split at every dot; never returns the empty list. *)
Fixpoint split_dot (s : string) : list string :=
  match s with
  | EmptyString => [EmptyString]
  | String c r =>
      if Ascii.eqb c "."%char then EmptyString :: split_dot r
      else match split_dot r with
           | h :: t => String c h :: t
           | [] => [String c EmptyString]
           end
  end.

(** Characters that [int] skips around a literal: of the code points
    below 256, tab to carriage return, space, U+0085 and U+00A0. *)
Definition is_space (c : ascii) : bool :=
  let n := nat_of_ascii c in
  ((9 <=? n) && (n <=? 13) || (n =? 32) || (n =? 133) || (n =? 160))%nat.

Definition digit_of (c : ascii) : option Z :=
  let n := nat_of_ascii c in
  if ((48 <=? n) && (n <=? 57))%nat then Some (Z.of_nat n - 48) else None.

Fixpoint lstrip (s : string) : string :=
  match s with
  | EmptyString => EmptyString
  | String c r => if is_space c then lstrip r else s
  end.

Fixpoint rstrip (s : string) : string :=
  match s with
  | EmptyString => EmptyString
  | String c r =>
      match rstrip r with
      | EmptyString => if is_space c then EmptyString else String c EmptyString
      | r' => String c r'
      end
  end.

(** Decimal digits with single underscores allowed between digits.
    [after_digit] tells whether the previous character was a digit. *)
Fixpoint digits (acc : Z) (after_digit : bool) (s : string) : option Z :=
  match s with
  | EmptyString => if after_digit then Some acc else None
  | String c r =>
      match digit_of c with
      | Some d => digits (10 * acc + d) true r
      | None =>
          if Ascii.eqb c "_"%char && after_digit then digits acc false r
          else None
      end
  end.

(** [int(s)] for a [str] of code points below 256, base 10: surrounding
    white space is dropped, one sign is allowed, then decimal digits.
    [None] stands for the [ValueError] of a malformed literal.  (The
    interpreter's configurable limit on the number of digits is not
    modelled.) *)
Definition py_int (s : string) : option Z :=
  match rstrip (lstrip s) with
  | String "-" r => Z.opp <$> digits 0 false r
  | String "+" r => digits 0 false r
  | r => digits 0 false r
  end.

(** Lines 17-20: the tuple unpacking.  Four components bind
    [major, minor, patch, dev]; anything else must have exactly three. *)
Definition unpack (tv : list string) : result (string * string * string) :=
  if (length tv =? 4)%nat then
    match tv with
    | [major; minor; patch; _] => Ok (major, minor, patch)
    | _ => Raise ValueError
    end
  else
    match tv with
    | [major; minor; patch] => Ok (major, minor, patch)
    | _ => Raise ValueError
    end.

Definition message : string :=
  "Mixtral requires a minimum of 4.37.0.dev0: pip install git+https://github.com/huggingface/transformers.git".

(** [_transformers_version_check], with [transformers.__version__] as its
    argument.  [and] evaluates [int(minor)] only when [int(major) == 4]. *)
Definition _transformers_version_check (version : string) : result unit :=
  match unpack (split_dot version) with
  | Raise e => Raise e
  | Ok (major, minor, _) =>
      match py_int major with
      | None => Raise ValueError
      | Some ma =>
          if ma =? 4 then
            match py_int minor with
            | None => Raise ValueError
            | Some mi => if mi <? 37 then Raise (Exception message) else Ok tt
            end
          else Ok tt
      end
  end.

End Version.
Import Version.

(** ** Values and the object store *)

Local Open Scope nat_scope.
Local Open Scope list_scope.

(** A Python value as the adapter sees it.  Immutable data is kept by
    value; every other object (modules, tensors, containers of the host
    framework, configuration objects) is a reference into the store. *)
#[warnings="-register-all"]
Inductive value : Type :=
| VNone
| VBool (b : bool)
| VInt (z : Z)
| VStr (s : string)
| VTuple (vs : list value)
| VList (vs : list value)
| VRef (l : nat).

(** The integer a [bool] or [int] compares as. *)
Definition as_int (v : value) : option Z :=
  match v with
  | VBool b => Some (if b then 1%Z else 0%Z)
  | VInt z => Some z
  | _ => None
  end.

(** [a == b]: numbers by value ([True == 1]), strings by content, tuples
    and lists element by element, objects in the store by identity (the
    default [object.__eq__]). *)
Fixpoint py_eq (a b : value) : bool :=
  let fix all2 (xs ys : list value) : bool :=
    match xs, ys with
    | [], [] => true
    | x :: xs', y :: ys' => py_eq x y && all2 xs' ys'
    | _, _ => false
    end in
  match a, b with
  | VNone, VNone => true
  | VStr s, VStr t => String.eqb s t
  | VTuple xs, VTuple ys => all2 xs ys
  | VList xs, VList ys => all2 xs ys
  | VRef l, VRef m => Nat.eqb l m
  | _, _ =>
      match as_int a, as_int b with
      | Some x, Some y => Z.eqb x y
      | _, _ => false
      end
  end.

(** A [dict] built by the adapter and handed back to the caller, in
    insertion order. *)
Abbreviation pydict := (list (string * value)).

(** An object of the store, by the protocol it is used through: attribute
    access, iteration ([nn.ModuleList]) or subscription by a string key
    ([dict]). *)
Inductive cell : Type :=
| CObject (attrs : gmap string value)
| CSeq (items : list value)
| CDict (entries : gmap string value).

(** The store: a reference is a position; objects are never freed, and a
    new object is placed at the end. *)
Abbreviation heap := (list cell).

(** ** The state-and-exception monad *)

Definition M (A : Type) : Type := heap → result A * heap.

Definition ret {A} (a : A) : M A := fun h => (Ok a, h).

Definition raise {A} (e : exn) : M A := fun h => (Raise e, h).

Definition bind {A B} (m : M A) (k : A → M B) : M B :=
  fun h =>
    match m h with
    | (Ok a, h') => k a h'
    | (Raise e, h') => (Raise e, h')
    end.

Notation "'let*' x ':=' m 'in' k" := (bind m (fun x => k))
  (at level 10, x pattern, m at level 100, k at level 200).
Notation "'do' m 'then' k" := (bind m (fun _ => k))
  (at level 10, m at level 100, k at level 200).

(** A pure computation that may raise, run without touching the store. *)
Definition lift {A} (r : result A) : M A := fun h => (r, h).

(** *** Primitive operations *)

(** The value of attribute [name] of [v] in store [h], if it has one.  Of
    the names this file uses, none is an attribute of [None], a number, a
    string, a tuple or a list. *)
Definition attr (h : heap) (v : value) (name : string) : option value :=
  match v with
  | VRef l =>
      match h !! l with
      | Some (CObject a) => a !! name
      | _ => None
      end
  | _ => None
  end.

(** [v.n1.n2...] read in store [h]. *)
Fixpoint path (h : heap) (v : value) (names : list string) : option value :=
  match names with
  | [] => Some v
  | n :: ns =>
      match attr h v n with
      | Some x => path h x ns
      | None => None
      end
  end.

(** [getattr(v, name)] *)
Definition getattr (v : value) (name : string) : M value :=
  fun h =>
    match attr h v name with
    | Some x => (Ok x, h)
    | None => (Raise AttributeError, h)
    end.

(** [v.n1.n2...], one [getattr] after the other. *)
Fixpoint getpath (v : value) (names : list string) : M value :=
  match names with
  | [] => ret v
  | n :: ns => let* x := getattr v n in getpath x ns
  end.

(** [setattr(v, name, x)] *)
Definition setattr (v : value) (name : string) (x : value) : M unit :=
  fun h =>
    match v with
    | VRef l =>
        match h !! l with
        | Some (CObject a) => (Ok tt, <[l := CObject (<[name := x]> a)]> h)
        | _ => (Raise AttributeError, h)
        end
    | _ => (Raise AttributeError, h)
    end.

(** [d[key]] for a string key, read in store [h]. *)
Definition item (h : heap) (d : value) (key : string) : result value :=
  match d with
  | VRef l =>
      match h !! l with
      | Some (CDict m) =>
          match m !! key with
          | Some x => Ok x
          | None => Raise KeyError
          end
      | _ => Raise TypeError
      end
  | _ => Raise TypeError
  end.

Definition getitem (d : value) (key : string) : M value :=
  fun h => (item h d key, h).

(** The elements that iterating over [v] yields in store [h], in order. *)
Definition elements (h : heap) (v : value) : result (list value) :=
  match v with
  | VRef l =>
      match h !! l with
      | Some (CSeq xs) => Ok xs
      | _ => Raise TypeError
      end
  | VList xs | VTuple xs => Ok xs
  | _ => Raise TypeError
  end.

Definition iter_items (v : value) : M (list value) :=
  fun h => (elements h v, h).

(** [next(iter(xs))] *)
Definition next_iter (xs : list value) : M value :=
  match xs with
  | x :: _ => ret x
  | [] => raise StopIteration
  end.

(** A constructor call: the new object is added to the store and its
    reference returned. *)
Definition alloc (c : cell) : M value :=
  fun h => (Ok (VRef (length h)), h ++ [c]).

(** [f'{i}'] for an index. *)
Definition str_of_nat (i : nat) : string :=
  NilEmpty.string_of_uint (Nat.to_uint i).

(** ** class MixtralAWQForCausalLM (lines 25-97) *)

Module MixtralAWQForCausalLM.

Definition layer_type : string := "MixtralDecoderLayer".
Definition max_new_tokens_key : string := "max_position_embeddings".
Definition modules_to_not_convert : list string := ["gate"].

(** Lines 35-38.  [version] is [transformers.__version__]. *)
Definition get_model_layers (version : string) (model : value) : M value :=
  do lift (_transformers_version_check version) then
  getpath model ["model"; "layers"].

(** Lines 40-44. *)
Definition get_act_for_scaling (module : value) : M pydict :=
  ret [("is_scalable", VBool false)].

(** Lines 46-52. *)
Definition get_moe_for_scaling (module : value) : M pydict :=
  let* scale_layer := getattr module "block_sparse_moe" in
  let* num_experts := getpath module ["block_sparse_moe"; "num_experts"] in
  let* hidden_dim := getpath module ["block_sparse_moe"; "hidden_dim"] in
  ret [("scale_name", VStr "block_sparse_moe");
       ("scale_layer", scale_layer);
       ("scale_shape", VTuple [num_experts; hidden_dim])].

(** The key [f'block_sparse_moe.experts.{i}.w2'] of line 94. *)
Definition w2_key (i : nat) : string :=
  "block_sparse_moe.experts." +:+ str_of_nat i +:+ ".w2".

(** Lines 90-95: the loop over [enumerate(module.block_sparse_moe.experts)],
    appending to [layers]. *)
Fixpoint scale_w2 (input_feat : value) (i : nat) (experts : list value)
    (layers : list pydict) : M (list pydict) :=
  match experts with
  | [] => ret layers
  | expert :: rest =>
      let* w3 := getattr expert "w3" in
      let* w2 := getattr expert "w2" in
      let* inp := getitem input_feat (w2_key i) in
      scale_w2 input_feat (S i) rest
        (layers ++ [[("prev_op", w3); ("layers", VList [w2]); ("inp", inp)]])
  end.

(** Lines 58-97. *)
Definition get_layers_for_scaling (module input_feat module_kwargs : value)
    : M (list pydict) :=
  let layers := [] in
  (* attention input *)
  let* prev_op := getattr module "input_layernorm" in
  let* q_proj := getpath module ["self_attn"; "q_proj"] in
  let* k_proj := getpath module ["self_attn"; "k_proj"] in
  let* v_proj := getpath module ["self_attn"; "v_proj"] in
  let* inp := getitem input_feat "self_attn.q_proj" in
  let* module2inspect := getattr module "self_attn" in
  let layers :=
    layers ++ [[("prev_op", prev_op); ("layers", VList [q_proj; k_proj; v_proj]);
                ("inp", inp); ("module2inspect", module2inspect);
                ("kwargs", module_kwargs)]] in
  (* attention out *)
  let* v_shape := getpath module ["self_attn"; "v_proj"; "weight"; "shape"] in
  let* o_shape := getpath module ["self_attn"; "o_proj"; "weight"; "shape"] in
  let* layers :=
    if py_eq v_shape o_shape then
      let* prev_op := getpath module ["self_attn"; "v_proj"] in
      let* o_proj := getpath module ["self_attn"; "o_proj"] in
      let* inp := getitem input_feat "self_attn.o_proj" in
      ret (layers ++ [[("prev_op", prev_op); ("layers", VList [o_proj]);
                       ("inp", inp)]])
    else ret layers in
  (* experts as a whole *)
  let* prev_op := getattr module "block_sparse_moe" in
  let* experts := getpath module ["block_sparse_moe"; "experts"] in
  let* inp := getitem input_feat "block_sparse_moe" in
  let* module2inspect := getattr module "block_sparse_moe" in
  let layers :=
    layers ++ [[("prev_op", prev_op); ("layers", experts); ("inp", inp);
                ("module2inspect", module2inspect)]] in
  (* scaling w2 *)
  let* experts := getpath module ["block_sparse_moe"; "experts"] in
  let* items := iter_items experts in
  scale_w2 input_feat 0 items layers.

Section Framework.

(** [x.to(device)] is a method of the host framework: it may change the
    store and returns a value, or raises. *)
Variable module_to : value → value → M value.

(** Lines 54-56.  The right-hand side is evaluated first, then the target
    [model.model] of the assignment. *)
Definition move_embed (model device : value) : M unit :=
  let* embed_tokens := getpath model ["model"; "embed_tokens"] in
  let* moved := module_to embed_tokens device in
  let* target := getattr model "model" in
  setattr target "embed_tokens" moved.

End Framework.

End MixtralAWQForCausalLM.

(** ** Strings *)

(** [c.lower()] for a code point below 256: the letters A-Z and the
    letters U+00C0-U+00DE other than the multiplication sign move up by
    32. *)
Definition py_lower_char (c : ascii) : ascii :=
  let n := nat_of_ascii c in
  if ((65 <=? n) && (n <=? 90)
      || (192 <=? n) && (n <=? 222) && negb (n =? 215))%nat
  then ascii_of_nat (n + 32) else c.

(** [s.lower()] *)
Fixpoint py_lower (s : string) : string :=
  match s with
  | EmptyString => EmptyString
  | String c r => String (py_lower_char c) (py_lower r)
  end.

(** [p in s] for two strings: [p] occurs in [s] as a contiguous run. *)
Fixpoint py_in (p s : string) : bool :=
  String.prefix p s ||
  match s with
  | EmptyString => false
  | String _ r => py_in p r
  end.

(** ** class MixtralFuser (lines 100-149) *)

Module MixtralFuser.
Section Collaborators.

(** The collaborators of lines 4-6 and 12 and the framework method
    [Module.state_dict] are not part of this file.  Each constructor reads
    the store and describes the object it builds; the call places that
    object in the store.  [state_dict_values] gives
    [module.state_dict().values()] in order. *)
Variable state_dict_values : heap → value → result (list value).
Variable fuse_qkv : heap → value → value → value → value → cell.
Variable FasterTransformerRMSNorm : heap → value → value → cell.
Variable MixtralBlock : heap → pydict → cell.
Variable MixtralModel : heap → value → value → value → value → cell.

(** Calling a constructor. *)
Definition construct (new : heap → cell) : M value :=
  fun h => alloc (new h) h.

(** The keyword arguments of lines 130-140. *)
Definition block_kwargs (hidden_size n_heads n_kv_heads qkv o_proj moe norm_1
    norm_2 dev max_seq_len rope_theta : value) : pydict :=
  [("hidden_size", hidden_size); ("n_heads", n_heads);
   ("n_kv_heads", n_kv_heads); ("qkv_layer", qkv); ("o_proj", o_proj);
   ("moe", moe); ("norm_1", norm_1); ("norm_2", norm_2); ("dev", dev);
   ("max_seq_len", max_seq_len); ("rope_theta", rope_theta)].

(** Lines 114-141: the body of the loop, for one decoder layer.  Returns
    the new block. *)
Definition fuse_layer (self module : value) : M value :=
  let* tensors := (fun h => (state_dict_values h module, h)) in
  let* first := next_iter tensors in
  let* device := getattr first "device" in
  let* q_proj := getpath module ["self_attn"; "q_proj"] in
  let* k_proj := getpath module ["self_attn"; "k_proj"] in
  let* v_proj := getpath module ["self_attn"; "v_proj"] in
  let* qkv := construct (fun h => fuse_qkv h module q_proj k_proj v_proj) in
  let* w1 := getpath module ["input_layernorm"; "weight"] in
  let* eps1 := getpath module ["input_layernorm"; "variance_epsilon"] in
  let* norm_1 := construct (fun h => FasterTransformerRMSNorm h w1 eps1) in
  let* w2 := getpath module ["post_attention_layernorm"; "weight"] in
  let* eps2 := getpath module ["post_attention_layernorm"; "variance_epsilon"] in
  let* norm_2 := construct (fun h => FasterTransformerRMSNorm h w2 eps2) in
  let* hidden_size := getpath self ["model"; "config"; "hidden_size"] in
  let* n_heads := getpath self ["model"; "config"; "num_attention_heads"] in
  let* n_kv_heads := getpath self ["model"; "config"; "num_key_value_heads"] in
  let* o_proj := getpath module ["self_attn"; "o_proj"] in
  let* moe := getattr module "block_sparse_moe" in
  let* max_seq_len := getpath self ["model"; "config"; "max_new_tokens"] in
  let* rope_theta := getpath self ["model"; "config"; "rope_theta"] in
  construct (fun h =>
    MixtralBlock h (block_kwargs hidden_size n_heads n_kv_heads qkv o_proj moe
                      norm_1 norm_2 device max_seq_len rope_theta)).

(** Lines 113-141: the loop, appending each block to [blocks]. *)
Fixpoint fuse_loop (self : value) (modules : list value) (blocks : list value)
    : M (list value) :=
  match modules with
  | [] => ret blocks
  | module :: rest =>
      let* block := fuse_layer self module in
      fuse_loop self rest (blocks ++ [block])
  end.

(** Lines 109-149.  The progress bar of line 113 yields the elements of
    the sequence it wraps, in order. *)
Definition fuse_transformer (self : value) : M unit :=
  let blocks := [] in
  let* layers := getpath self ["model"; "model"; "layers"] in
  let* modules := iter_items layers in
  let* blocks := fuse_loop self modules blocks in
  let* vocab_size := getpath self ["model"; "config"; "vocab_size"] in
  let* embed_tokens := getpath self ["model"; "model"; "embed_tokens"] in
  let* norm := getpath self ["model"; "model"; "norm"] in
  let* fused :=
    construct (fun h => MixtralModel h vocab_size (VList blocks) embed_tokens norm) in
  let* target := getattr self "model" in
  do setattr target "model" fused then
  let* fused_model := getpath self ["model"; "model"] in
  let* fused_blocks := getpath self ["model"; "model"; "blocks"] in
  setattr fused_model "blocks" fused_blocks.

(** [Module.named_modules] is a method of the host framework and
    [class_name h m] stands for [m.__class__.__name__]; both read the
    store. *)
Variable named_modules : heap → value → result (list (string * value)).
Variable class_name : heap → value → string.

(** The condition of line 106. *)
Definition is_decoder_layer (h : heap) (module : value) : bool :=
  py_in (py_lower "MixtralDecoderLayer") (py_lower (class_name h module)).

(** The list comprehension of lines 104-107, over the pairs that
    [named_modules] yields. *)
Definition select_blocks (h : heap) (named : list (string * value))
    : list value :=
  (λ nm, VTuple [VStr nm.1; nm.2]) <$>
  List.filter (λ nm, is_decoder_layer h nm.2) named.

(** Lines 101-107. *)
Definition __init__ (self model : value) : M unit :=
  do setattr self "model" model then
  let* model := getattr self "model" in
  let* named := (fun h => (named_modules h model, h)) in
  let* blocks := (fun h => (Ok (VList (select_blocks h named)), h)) in
  setattr self "mixtral_blocks" blocks.

(** [MixtralFuser(model)]: a new object, initialised by [__init__]. *)
Definition new (model : value) : M value :=
  let* self := alloc (CObject ∅) in
  do __init__ self model then
  ret self.

(** Lines 30-33, the static method [fuse_layers] of
    [MixtralAWQForCausalLM]. *)
Definition fuse_layers (model : value) : M unit :=
  let* fuser := new model in
  fuse_transformer fuser.

End Collaborators.
End MixtralFuser.


(** * Vocabulary of the statements *)

Import MixtralAWQForCausalLM.

(** ** Computations that leave the store as it is *)

Definition read_only {A} (m : M A) : Prop := ∀ h, (m h).2 = h.

(** ** What a computation can return and raise *)

Definition returns_only {A} (m : M A) (Q : A → Prop) : Prop :=
  ∀ h a h', m h = (Ok a, h') → Q a.

Definition raises_only {A} (m : M A) (P : exn → Prop) : Prop :=
  ∀ h e h', m h = (Raise e, h') → P e.

(** The exceptions of attribute access, subscription and iteration. *)
Definition lookup_error (e : exn) : Prop :=
  e = AttributeError ∨ e = KeyError ∨ e = TypeError.

(** ** Version strings *)


(** A string without a dot. *)
Fixpoint dot_free (s : string) : bool :=
  match s with
  | EmptyString => true
  | String c r => negb (Ascii.eqb c "."%char) && dot_free r
  end.

(** ** The descriptors of [get_layers_for_scaling] *)

(** Every descriptor starts with the entries [prev_op], [layers], [inp]. *)
Definition core_keys (d : pydict) : Prop :=
  take 3 d.*1 = ["prev_op"; "layers"; "inp"].

(** What the loop of lines 90-95 reads of one expert. *)
Record expert_parts := ExpertParts {
  e_w3 : value;
  e_w2 : value;
  e_inp : value
}.

(** The expert at position [i] of [experts] has [w3] and [w2], and
    [input_feat] has the key of line 94 for [i]. *)
Definition expert_at (h : heap) (input_feat : value) (i : nat) (expert : value)
    (p : expert_parts) : Prop :=
  attr h expert "w3" = Some (e_w3 p) ∧
  attr h expert "w2" = Some (e_w2 p) ∧
  item h input_feat (w2_key i) = Ok (e_inp p).

Definition expert_desc (p : expert_parts) : pydict :=
  [("prev_op", e_w3 p); ("layers", VList [e_w2 p]); ("inp", e_inp p)].

(** The descriptors of lines 63-69, 73-77 and 81-86. *)
Definition attn_in_desc (input_layernorm q_proj k_proj v_proj inp self_attn
    module_kwargs : value) : pydict :=
  [("prev_op", input_layernorm); ("layers", VList [q_proj; k_proj; v_proj]);
   ("inp", inp); ("module2inspect", self_attn); ("kwargs", module_kwargs)].

Definition attn_out_desc (v_proj o_proj inp : value) : pydict :=
  [("prev_op", v_proj); ("layers", VList [o_proj]); ("inp", inp)].

Definition moe_desc (block_sparse_moe experts inp : value) : pydict :=
  [("prev_op", block_sparse_moe); ("layers", experts); ("inp", inp);
   ("module2inspect", block_sparse_moe)].

(** ** What the fuser reads and builds *)

(** What lines 114-141 read of one decoder layer. *)
Record layer_parts := LayerParts {
  p_dev : value;
  p_q : value;
  p_k : value;
  p_v : value;
  p_w1 : value;
  p_eps1 : value;
  p_w2 : value;
  p_eps2 : value;
  p_o : value;
  p_moe : value
}.

(** What lines 130-140 read of [self.model.config]. *)
Record config_parts := ConfigParts {
  c_hidden_size : value;
  c_n_heads : value;
  c_n_kv_heads : value;
  c_max_new_tokens : value;
  c_rope_theta : value
}.

Definition config_at (h : heap) (self : value) (c : config_parts) : Prop :=
  path h self ["model"; "config"; "hidden_size"] = Some (c_hidden_size c) ∧
  path h self ["model"; "config"; "num_attention_heads"] = Some (c_n_heads c) ∧
  path h self ["model"; "config"; "num_key_value_heads"] = Some (c_n_kv_heads c) ∧
  path h self ["model"; "config"; "max_new_tokens"] = Some (c_max_new_tokens c) ∧
  path h self ["model"; "config"; "rope_theta"] = Some (c_rope_theta c).

Section FusedObjects.

Variable state_dict_values : heap → value → result (list value).
Variable fuse_qkv : heap → value → value → value → value → cell.
Variable FasterTransformerRMSNorm : heap → value → value → cell.
Variable MixtralBlock : heap → pydict → cell.

(** The layer [module] has everything the loop body reads. *)
Definition layer_at (h : heap) (module : value) (p : layer_parts) : Prop :=
  (∃ first rest, state_dict_values h module = Ok (first :: rest) ∧
                 attr h first "device" = Some (p_dev p)) ∧
  path h module ["self_attn"; "q_proj"] = Some (p_q p) ∧
  path h module ["self_attn"; "k_proj"] = Some (p_k p) ∧
  path h module ["self_attn"; "v_proj"] = Some (p_v p) ∧
  path h module ["input_layernorm"; "weight"] = Some (p_w1 p) ∧
  path h module ["input_layernorm"; "variance_epsilon"] = Some (p_eps1 p) ∧
  path h module ["post_attention_layernorm"; "weight"] = Some (p_w2 p) ∧
  path h module ["post_attention_layernorm"; "variance_epsilon"] = Some (p_eps2 p) ∧
  path h module ["self_attn"; "o_proj"] = Some (p_o p) ∧
  attr h module "block_sparse_moe" = Some (p_moe p).

(** The four objects that one iteration adds to a store [h]: the fused
    projection, the two norms and the block. *)
Definition layer_cells (h : heap) (c : config_parts) (module : value)
    (p : layer_parts) : list cell :=
  let lq := length h in
  let qkv := fuse_qkv h module (p_q p) (p_k p) (p_v p) in
  let h1 := h ++ [qkv] in
  let norm_1 := FasterTransformerRMSNorm h1 (p_w1 p) (p_eps1 p) in
  let h2 := h1 ++ [norm_1] in
  let norm_2 := FasterTransformerRMSNorm h2 (p_w2 p) (p_eps2 p) in
  let h3 := h2 ++ [norm_2] in
  let block :=
    MixtralBlock h3
      (MixtralFuser.block_kwargs (c_hidden_size c) (c_n_heads c)
         (c_n_kv_heads c) (VRef lq) (p_o p) (p_moe p) (VRef (lq + 1))
         (VRef (lq + 2)) (p_dev p) (c_max_new_tokens c) (c_rope_theta c)) in
  [qkv; norm_1; norm_2; block].

(** The objects that the loop adds to a store [h], layer after layer. *)
Fixpoint loop_cells (h : heap) (c : config_parts) (modules : list value)
    (ps : list layer_parts) : list cell :=
  match modules, ps with
  | module :: modules', p :: ps' =>
      let cells := layer_cells h c module p in
      cells ++ loop_cells (h ++ cells) c modules' ps'
  | _, _ => []
  end.

(** The references of [n] blocks built from a store of size [base]: each
    iteration adds four objects, the block last. *)
Definition block_refs (base n : nat) : list value :=
  (λ i, VRef (base + 4 * i + 3)) <$> seq 0 n.

(** [block] was built from the layer [module]: it is the object made by
    [MixtralBlock] from the layer's [o_proj] and [block_sparse_moe], the
    projection fused from its [q_proj], [k_proj], [v_proj] and the norms
    made from its two layer norms. *)
Definition built_from (h' : heap) (c : config_parts) (module : value)
    (p : layer_parts) (block : value) : Prop :=
  ∃ (lq : nat) (hq h1 h2 h3 : heap),
    h' !! lq = Some (fuse_qkv hq module (p_q p) (p_k p) (p_v p)) ∧
    h' !! (lq + 1) = Some (FasterTransformerRMSNorm h1 (p_w1 p) (p_eps1 p)) ∧
    h' !! (lq + 2) = Some (FasterTransformerRMSNorm h2 (p_w2 p) (p_eps2 p)) ∧
    block = VRef (lq + 3) ∧
    h' !! (lq + 3) =
      Some (MixtralBlock h3
              (MixtralFuser.block_kwargs (c_hidden_size c) (c_n_heads c)
                 (c_n_kv_heads c) (VRef lq) (p_o p) (p_moe p) (VRef (lq + 1))
                 (VRef (lq + 2)) (p_dev p) (c_max_new_tokens c)
                 (c_rope_theta c))).

End FusedObjects.

(** What line 149 finds when it reads [blocks] from the new model. *)
Definition blocks_attr (fused : cell) : option value :=
  match fused with
  | CObject a => a !! "blocks"
  | _ => None
  end.

(** ** A concrete store *)

(** A model with two decoder layers and two experts.  Layer [VRef 6] has a
    [v_proj] of shape (1024, 4096) and an [o_proj] of shape (4096, 4096);
    in layer [VRef 7] the two have the same shape. *)
Module Sample.

Definition obj (kvs : list (string * value)) : cell := CObject (list_to_map kvs).

Definition store : heap :=
  [ (* 0: the model *)
    obj [("model", VRef 1); ("config", VRef 2)];
    (* 1: model.model *)
    obj [("layers", VRef 3); ("embed_tokens", VRef 4); ("norm", VRef 5)];
    (* 2: model.config *)
    obj [("hidden_size", VInt 4096); ("num_attention_heads", VInt 32);
         ("num_key_value_heads", VInt 8); ("max_new_tokens", VInt 2048);
         ("rope_theta", VInt 1000000); ("vocab_size", VInt 32000)];
    (* 3: model.model.layers *)
    CSeq [VRef 6; VRef 7];
    (* 4, 5: embed_tokens, norm *)
    obj [("weight", VRef 18)];
    obj [("weight", VRef 12)];
    (* 6, 7: the decoder layers *)
    obj [("input_layernorm", VRef 8); ("post_attention_layernorm", VRef 9);
         ("self_attn", VRef 10); ("block_sparse_moe", VRef 11)];
    obj [("input_layernorm", VRef 8); ("post_attention_layernorm", VRef 9);
         ("self_attn", VRef 16); ("block_sparse_moe", VRef 11)];
    (* 8, 9: the layer norms *)
    obj [("weight", VRef 12); ("variance_epsilon", VRef 13)];
    obj [("weight", VRef 12); ("variance_epsilon", VRef 13)];
    (* 10: self_attn of layer 6 *)
    obj [("q_proj", VRef 14); ("k_proj", VRef 15); ("v_proj", VRef 15);
         ("o_proj", VRef 14)];
    (* 11: block_sparse_moe *)
    obj [("num_experts", VInt 2); ("hidden_dim", VInt 4096);
         ("experts", VRef 17)];
    (* 12: a tensor of shape (4096,) *)
    obj [("shape", VTuple [VInt 4096]); ("device", VRef 13)];
    (* 13: an object nothing is read from *)
    obj [];
    (* 14, 15: linear layers *)
    obj [("weight", VRef 18)];
    obj [("weight", VRef 19)];
    (* 16: self_attn of layer 7 *)
    obj [("q_proj", VRef 14); ("k_proj", VRef 14); ("v_proj", VRef 14);
         ("o_proj", VRef 14)];
    (* 17: the experts *)
    CSeq [VRef 20; VRef 21];
    (* 18, 19: the weights *)
    obj [("shape", VTuple [VInt 4096; VInt 4096]); ("device", VRef 13)];
    obj [("shape", VTuple [VInt 1024; VInt 4096]); ("device", VRef 13)];
    (* 20, 21: the experts *)
    obj [("w1", VRef 14); ("w2", VRef 14); ("w3", VRef 15)];
    obj [("w1", VRef 15); ("w2", VRef 15); ("w3", VRef 14)];
    (* 22: input_feat *)
    CDict (list_to_map
      [("self_attn.q_proj", VRef 12); ("self_attn.o_proj", VRef 18);
       ("block_sparse_moe", VRef 19);
       ("block_sparse_moe.experts.0.w2", VRef 4);
       ("block_sparse_moe.experts.1.w2", VRef 5)]);
    (* 23: the fuser *)
    obj [("model", VRef 0)] ].

Definition experts : list expert_parts :=
  [ExpertParts (VRef 15) (VRef 14) (VRef 4);
   ExpertParts (VRef 14) (VRef 15) (VRef 5)].

(** The store with one more object: a feature dictionary that has only
    the key [self_attn.q_proj]. *)
Definition store_without_o_proj : heap :=
  store ++ [CDict (list_to_map [("self_attn.q_proj", VRef 12)])].

(** The store with an empty [model.model.layers]. *)
Definition store_no_layers : heap := <[3 := CSeq []]> store.

(** The store with one more decoder layer, [VRef 27], whose [v_proj] and
    [o_proj] are two objects with weights of the same shape. *)
Definition store_equal_shapes : heap :=
  store ++
  [ (* 24: a linear layer with a weight of its own *)
    obj [("weight", VRef 25)];
    (* 25: its weight, of shape (4096, 4096) *)
    obj [("shape", VTuple [VInt 4096; VInt 4096]); ("device", VRef 13)];
    (* 26: an attention module whose v_proj and o_proj are two objects *)
    obj [("q_proj", VRef 14); ("k_proj", VRef 15); ("v_proj", VRef 14);
         ("o_proj", VRef 24)];
    (* 27: a decoder layer with that attention module *)
    obj [("input_layernorm", VRef 8); ("post_attention_layernorm", VRef 9);
         ("self_attn", VRef 26); ("block_sparse_moe", VRef 11)] ].

End Sample.

(** ** The fuser on the concrete store *)

(** Stand-ins for the collaborators: each constructor keeps its arguments
    as attributes of the object it builds, and the state of a decoder
    layer starts with the weight of its first layer norm. *)
Module SampleFuser.

Definition state_dict_values (h : heap) (module : value) : result (list value) :=
  match path h module ["input_layernorm"; "weight"] with
  | Some w => Ok [w]
  | None => Raise AttributeError
  end.

Definition fuse_qkv (h : heap) (module q k v : value) : cell :=
  Sample.obj [("q", q); ("k", k); ("v", v)].

Definition FasterTransformerRMSNorm (h : heap) (weight eps : value) : cell :=
  Sample.obj [("weight", weight); ("variance_epsilon", eps)].

Definition MixtralBlock (h : heap) (kwargs : pydict) : cell := Sample.obj kwargs.

Definition MixtralModel (h : heap) (vocab_size blocks embedding norm : value)
    : cell :=
  Sample.obj [("vocab_size", vocab_size); ("blocks", blocks);
              ("embedding", embedding); ("norm", norm)].

Definition parts : list layer_parts :=
  [LayerParts (VRef 13) (VRef 14) (VRef 15) (VRef 15) (VRef 12) (VRef 13)
     (VRef 12) (VRef 13) (VRef 14) (VRef 11);
   LayerParts (VRef 13) (VRef 14) (VRef 14) (VRef 14) (VRef 12) (VRef 13)
     (VRef 12) (VRef 13) (VRef 14) (VRef 11)].

Definition config : config_parts :=
  ConfigParts (VInt 4096) (VInt 32) (VInt 8) (VInt 2048) (VInt 1000000).

(** A [state_dict] without any tensor. *)
Definition no_state (h : heap) (module : value) : result (list value) := Ok [].

(** The modules of the model of [Sample.store], with their names. *)
Definition named_modules (h : heap) (model : value)
    : result (list (string * value)) :=
  Ok [("", model); ("model", VRef 1); ("model.layers", VRef 3);
      ("model.layers.0", VRef 6); ("model.layers.1", VRef 7)].

Definition class_name (h : heap) (module : value) : string :=
  match module with
  | VRef 6 | VRef 7 => "MixtralDecoderLayer"
  | VRef 3 => "ModuleList"
  | _ => "Module"
  end.

(** [to] of a module gives the module back. *)
Definition module_to (module device : value) : M value := ret module.

End SampleFuser.

(** * Properties *)

(** ** The version guard *)

Example split_dot_dev : split_dot "4.37.0.dev0" = ["4"; "37"; "0"; "dev0"].
Proof. reflexivity. Qed.

Example check_436 : _transformers_version_check "4.36.2" = Raise (Exception message).
Proof. reflexivity. Qed.

Example check_437dev : _transformers_version_check "4.37.0.dev0" = Ok tt.
Proof. reflexivity. Qed.

Example check_5 : _transformers_version_check "5.0.0" = Ok tt.
Proof. reflexivity. Qed.

Lemma unpack_ok_length tv r :
  unpack tv = Ok r → length tv = 3 ∨ length tv = 4.
Proof.
  destruct tv as [|a [|b [|c [|d [|e tv]]]]]; cbn; intros H;
    try discriminate; auto.
Qed.

Lemma unpack_raise_length tv :
  length tv ≠ 3 → length tv ≠ 4 → unpack tv = Raise ValueError.
Proof.
  intros H3 H4. destruct (unpack tv) as [r|e] eqn:E.
  - apply unpack_ok_length in E. tauto.
  - destruct tv as [|a [|b [|c [|d [|x tv]]]]]; cbn in E;
      congruence.
Qed.

Lemma unpack_raise_value_error tv e : unpack tv = Raise e → e = ValueError.
Proof.
  destruct tv as [|a [|b [|c [|d [|x tv]]]]]; cbn; congruence.
Qed.

(** X1: the guard raises its own error exactly when the version unpacks, the
    major number is 4 and the minor number is below 37. *)
Lemma version_check_raises_iff version :
  _transformers_version_check version = Raise (Exception message) ↔
  ∃ major minor patch mi,
    unpack (split_dot version) = Ok (major, minor, patch) ∧
    py_int major = Some 4%Z ∧ py_int minor = Some mi ∧ (mi < 37)%Z.
Proof.
  unfold _transformers_version_check. split.
  - destruct (unpack (split_dot version)) as [[[major minor] patch]|e] eqn:E.
    2:{ apply unpack_raise_value_error in E. congruence. }
    destruct (py_int major) as [ma|] eqn:Ema; [|discriminate].
    destruct (Z.eqb_spec ma 4) as [->|]; [|discriminate].
    destruct (py_int minor) as [mi|] eqn:Emi; [|discriminate].
    destruct (Z.ltb_spec mi 37); [|discriminate].
    intros _. by exists major, minor, patch, mi.
  - intros (major & minor & patch & mi & -> & -> & -> & Hlt). cbn.
    by destruct (Z.ltb_spec mi 37); [|lia].
Qed.




(** C10: a version string whose number of dot-separated components is
    neither three nor four fails in the tuple unpacking: the guard ends in
    a [ValueError], neither passing nor raising its own error. *)
Theorem version_check_component_count version :
  length (split_dot version) ≠ 3 →
  length (split_dot version) ≠ 4 →
  unpack (split_dot version) = Raise ValueError ∧
  _transformers_version_check version = Raise ValueError.
Proof.
  intros H3 H4. pose proof (unpack_raise_length _ H3 H4) as E.
  split; [exact E|]. unfold _transformers_version_check. by rewrite E.
Qed.

Lemma version_check_component_count_witness :
  length (split_dot "4.37") ≠ 3 ∧
  length (split_dot "4.37") ≠ 4 ∧
  unpack (split_dot "4.37") = Raise ValueError ∧
  _transformers_version_check "4.37" = Raise ValueError.
Proof.
  assert (H3 : length (split_dot "4.37") ≠ 3) by (vm_compute; lia).
  assert (H4 : length (split_dot "4.37") ≠ 4) by (vm_compute; lia).
  exact (conj H3 (conj H4 (version_check_component_count "4.37" H3 H4))).
Defined.

(** ** Running the primitive operations *)

Lemma bind_ok {A B} (m : M A) (k : A → M B) h a h1 :
  m h = (Ok a, h1) → bind m k h = k a h1.
Proof. intros E. unfold bind. by rewrite E. Qed.

Lemma bind_raise {A B} (m : M A) (k : A → M B) h e h1 :
  m h = (Raise e, h1) → bind m k h = (Raise e, h1).
Proof. intros E. unfold bind. by rewrite E. Qed.

Lemma bind_inv {A B} (m : M A) (k : A → M B) h r h' :
  bind m k h = (r, h') →
  (∃ a h1, m h = (Ok a, h1) ∧ k a h1 = (r, h')) ∨
  (∃ e, m h = (Raise e, h') ∧ r = Raise e).
Proof.
  unfold bind. destruct (m h) as [[a|e] h1]; intros E.
  - left. by exists a, h1.
  - right. exists e. by inversion E.
Qed.

Lemma getattr_run v name h :
  getattr v name h =
  (match attr h v name with Some x => Ok x | None => Raise AttributeError end, h).
Proof. unfold getattr. by destruct (attr h v name). Qed.

Lemma getpath_run v names h :
  getpath v names h =
  (match path h v names with Some x => Ok x | None => Raise AttributeError end, h).
Proof.
  revert v. induction names as [|n ns IH]; intros v; cbn; [done|].
  unfold bind. rewrite getattr_run.
  destruct (attr h v n) as [x|]; [apply IH|done].
Qed.

Lemma path_cons h v n ns x :
  attr h v n = Some x → path h v (n :: ns) = path h x ns.
Proof. intros E. cbn. by rewrite E. Qed.

Lemma bind_getattr {B} v name (k : value → M B) h x :
  attr h v name = Some x → bind (getattr v name) k h = k x h.
Proof. intros E. apply bind_ok. by rewrite getattr_run, E. Qed.

Lemma bind_getpath {B} v names (k : value → M B) h x :
  path h v names = Some x → bind (getpath v names) k h = k x h.
Proof. intros E. apply bind_ok. by rewrite getpath_run, E. Qed.

Lemma bind_getitem {B} d key (k : value → M B) h x :
  item h d key = Ok x → bind (getitem d key) k h = k x h.
Proof. intros E. apply bind_ok. unfold getitem. by rewrite E. Qed.

Lemma bind_iter_items {B} v (k : list value → M B) h xs :
  elements h v = Ok xs → bind (iter_items v) k h = k xs h.
Proof. intros E. apply bind_ok. unfold iter_items. by rewrite E. Qed.

(** *** Computations that leave the store as it is *)

Lemma read_only_ret {A} (a : A) : read_only (ret a).
Proof. done. Qed.

Lemma read_only_raise {A} e : read_only (@raise A e).
Proof. done. Qed.

Lemma read_only_lift {A} (r : result A) : read_only (lift r).
Proof. done. Qed.

Lemma read_only_getattr v name : read_only (getattr v name).
Proof. intros h. by rewrite getattr_run. Qed.

Lemma read_only_getpath v names : read_only (getpath v names).
Proof. intros h. by rewrite getpath_run. Qed.

Lemma read_only_getitem d key : read_only (getitem d key).
Proof. done. Qed.

Lemma read_only_iter_items v : read_only (iter_items v).
Proof. done. Qed.

Lemma read_only_bind {A B} (m : M A) (k : A → M B) :
  read_only m → (∀ a, read_only (k a)) → read_only (bind m k).
Proof.
  intros Hm Hk h. unfold bind. specialize (Hm h).
  destruct (m h) as [[a|e] h1]; cbn in Hm; subst h1; [apply Hk|done].
Qed.

Lemma read_only_if {A} (b : bool) (m1 m2 : M A) :
  read_only m1 → read_only m2 → read_only (if b then m1 else m2).
Proof. by destruct b. Qed.

Create HintDb read_only.
#[local] Hint Resolve read_only_ret read_only_raise read_only_lift
  read_only_getattr read_only_getpath read_only_getitem read_only_iter_items
  read_only_if : read_only.
#[local] Hint Extern 2 (read_only (bind _ _)) =>
  apply read_only_bind; [|intros ?] : read_only.

(** ** MixtralAWQForCausalLM *)

(** C2: when the version guard passes, [get_model_layers] returns the
    object stored under [model.model.layers], and the store is as
    before. *)
Theorem get_model_layers_returns_layers version (h : heap) (lm li : nat)
    (am ai : gmap string value) (layers : value) :
  _transformers_version_check version = Ok tt →
  h !! lm = Some (CObject am) →
  am !! "model" = Some (VRef li) →
  h !! li = Some (CObject ai) →
  ai !! "layers" = Some layers →
  get_model_layers version (VRef lm) h = (Ok layers, h).
Proof.
  intros Hv Hm Hmm Hi Hl. unfold get_model_layers.
  rewrite (bind_ok _ _ h tt h) by (unfold lift; by rewrite Hv).
  rewrite getpath_run. unfold path, attr. by rewrite Hm, Hmm, Hi, Hl.
Qed.

(** C9: [get_act_for_scaling] returns [{is_scalable: False}] for every
    module. *)
Theorem get_act_for_scaling_constant (module : value) (h : heap) :
  get_act_for_scaling module h = (Ok [("is_scalable", VBool false)], h).
Proof. reflexivity. Qed.

(** C4: [get_moe_for_scaling] returns the three entries [scale_name],
    [scale_layer], [scale_shape], holding the string
    ["block_sparse_moe"], the [block_sparse_moe] submodule and the pair of
    its [num_experts] and [hidden_dim]. *)
Theorem get_moe_for_scaling_record (h : heap) (module moe num_experts
    hidden_dim : value) :
  attr h module "block_sparse_moe" = Some moe →
  attr h moe "num_experts" = Some num_experts →
  attr h moe "hidden_dim" = Some hidden_dim →
  ∃ d, get_moe_for_scaling module h = (Ok d, h) ∧
       d.*1 = ["scale_name"; "scale_layer"; "scale_shape"] ∧
       d = [("scale_name", VStr "block_sparse_moe");
            ("scale_layer", moe);
            ("scale_shape", VTuple [num_experts; hidden_dim])].
Proof.
  intros Hmoe Hne Hhd. eexists. split; [|split; [|reflexivity]]; [|done].
  unfold get_moe_for_scaling.
  rewrite (bind_getattr _ _ _ _ _ Hmoe).
  rewrite (bind_getpath _ _ _ _ num_experts)
    by (rewrite (path_cons _ _ _ _ _ Hmoe); cbn; by rewrite Hne).
  rewrite (bind_getpath _ _ _ _ hidden_dim)
    by (rewrite (path_cons _ _ _ _ _ Hmoe); cbn; by rewrite Hhd).
  reflexivity.
Qed.

(** C7: [get_layers_for_scaling] leaves the store as it was, whatever its
    arguments and whether it returns or raises: no object is changed, the
    feature dictionary included, and none is added, so that the
    descriptors can only refer to objects that were already there. *)
Theorem get_layers_for_scaling_read_only (module input_feat module_kwargs
    : value) (h : heap) :
  (get_layers_for_scaling module input_feat module_kwargs h).2 = h.
Proof.
  assert (Hloop : ∀ items i acc, read_only (scale_w2 input_feat i items acc)).
  { induction items as [|e items IH]; intros i acc; cbn;
      auto 10 with read_only. }
  revert h. change (read_only (get_layers_for_scaling module input_feat module_kwargs)).
  unfold get_layers_for_scaling. auto 30 with read_only.
Qed.

(** *** The descriptors of [get_layers_for_scaling] *)

Lemma scale_w2_run h input_feat experts : ∀ ps i0 acc,
  length ps = length experts →
  (∀ i e p, experts !! i = Some e → ps !! i = Some p →
            expert_at h input_feat (i0 + i) e p) →
  scale_w2 input_feat i0 experts acc h = (Ok (acc ++ map expert_desc ps), h).
Proof.
  induction experts as [|e experts IH]; intros [|p ps] i0 acc Hlen Hat;
    try discriminate; cbn.
  - by rewrite app_nil_r.
  - destruct (Hat 0 e p eq_refl eq_refl) as (Hw3 & Hw2 & Hinp).
    rewrite Nat.add_0_r in Hinp.
    rewrite (bind_getattr _ _ _ _ _ Hw3), (bind_getattr _ _ _ _ _ Hw2),
      (bind_getitem _ _ _ _ _ Hinp).
    rewrite (IH ps (S i0)).
    + by rewrite <- app_assoc.
    + by injection Hlen.
    + intros i e' p' He Hp. replace (S i0 + i) with (i0 + S i) by lia.
      by apply Hat.
Qed.

Section ScalingLayout.

(** A decoder layer [module] with the attributes that lines 58-97 read,
    and a feature dictionary with the keys they look up. *)
Variables (h : heap) (module input_feat module_kwargs : value).
Variables (input_layernorm self_attn q_proj k_proj v_proj o_proj : value).
Variables (v_shape o_shape block_sparse_moe experts : value).
Variables (inp_q inp_o inp_moe : value).
Variables (items : list value) (ps : list expert_parts).

Hypothesis H_ln : attr h module "input_layernorm" = Some input_layernorm.
Hypothesis H_attn : attr h module "self_attn" = Some self_attn.
Hypothesis H_q : attr h self_attn "q_proj" = Some q_proj.
Hypothesis H_k : attr h self_attn "k_proj" = Some k_proj.
Hypothesis H_v : attr h self_attn "v_proj" = Some v_proj.
Hypothesis H_o : attr h self_attn "o_proj" = Some o_proj.
Hypothesis H_v_shape : path h v_proj ["weight"; "shape"] = Some v_shape.
Hypothesis H_o_shape : path h o_proj ["weight"; "shape"] = Some o_shape.
Hypothesis H_moe : attr h module "block_sparse_moe" = Some block_sparse_moe.
Hypothesis H_experts : attr h block_sparse_moe "experts" = Some experts.
Hypothesis H_items : elements h experts = Ok items.
Hypothesis H_inp_q : item h input_feat "self_attn.q_proj" = Ok inp_q.
Hypothesis H_inp_o :
  py_eq v_shape o_shape = true → item h input_feat "self_attn.o_proj" = Ok inp_o.
Hypothesis H_inp_moe : item h input_feat "block_sparse_moe" = Ok inp_moe.
Hypothesis H_len : length ps = length items.
Hypothesis H_ps : ∀ i e p,
  items !! i = Some e → ps !! i = Some p → expert_at h input_feat i e p.

Local Abbreviation attn_in :=
  (attn_in_desc input_layernorm q_proj k_proj v_proj inp_q self_attn
     module_kwargs).
Local Abbreviation attn_out := (attn_out_desc v_proj o_proj inp_o).
Local Abbreviation moe := (moe_desc block_sparse_moe experts inp_moe).

Lemma get_layers_for_scaling_run :
  get_layers_for_scaling module input_feat module_kwargs h =
  (Ok (attn_in ::
       (if py_eq v_shape o_shape then [attn_out] else []) ++
       moe :: map expert_desc ps), h).
Proof using All.
  unfold get_layers_for_scaling.
  assert (Hp : ∀ n x, attr h self_attn n = Some x →
                      path h module ["self_attn"; n] = Some x).
  { intros n x E. rewrite (path_cons _ _ _ _ _ H_attn). cbn. by rewrite E. }
  assert (Hs : ∀ n p s, attr h self_attn n = Some p →
                 path h p ["weight"; "shape"] = Some s →
                 path h module ["self_attn"; n; "weight"; "shape"] = Some s).
  { intros n p s E Es. rewrite (path_cons _ _ _ _ _ H_attn).
    by rewrite (path_cons _ _ _ _ _ E). }
  assert (He : path h module ["block_sparse_moe"; "experts"] = Some experts).
  { rewrite (path_cons _ _ _ _ _ H_moe). cbn. by rewrite H_experts. }
  rewrite (bind_getattr _ _ _ _ _ H_ln).
  rewrite (bind_getpath _ _ _ _ _ (Hp _ _ H_q)),
    (bind_getpath _ _ _ _ _ (Hp _ _ H_k)),
    (bind_getpath _ _ _ _ _ (Hp _ _ H_v)).
  rewrite (bind_getitem _ _ _ _ _ H_inp_q), (bind_getattr _ _ _ _ _ H_attn).
  rewrite (bind_getpath _ _ _ _ _ (Hs _ _ _ H_v H_v_shape)),
    (bind_getpath _ _ _ _ _ (Hs _ _ _ H_o H_o_shape)).
  destruct (py_eq v_shape o_shape) eqn:Eq.
  - rewrite (bind_ok _ _ h ([attn_in; attn_out]) h).
    2:{ rewrite (bind_getpath _ _ _ _ _ (Hp _ _ H_v)),
          (bind_getpath _ _ _ _ _ (Hp _ _ H_o)),
          (bind_getitem _ _ _ _ _ (H_inp_o eq_refl)). done. }
    rewrite (bind_getattr _ _ _ _ _ H_moe), (bind_getpath _ _ _ _ _ He),
      (bind_getitem _ _ _ _ _ H_inp_moe), (bind_getattr _ _ _ _ _ H_moe),
      (bind_getpath _ _ _ _ _ He), (bind_iter_items _ _ _ _ H_items).
    rewrite (scale_w2_run h input_feat items ps 0 _ H_len H_ps). done.
  - rewrite (bind_ok _ _ h ([attn_in]) h) by done.
    rewrite (bind_getattr _ _ _ _ _ H_moe), (bind_getpath _ _ _ _ _ He),
      (bind_getitem _ _ _ _ _ H_inp_moe), (bind_getattr _ _ _ _ _ H_moe),
      (bind_getpath _ _ _ _ _ He), (bind_iter_items _ _ _ _ H_items).
    rewrite (scale_w2_run h input_feat items ps 0 _ H_len H_ps). done.
Qed.

End ScalingLayout.

(** On tuples of integers, [==] is equality of the two sequences. *)
Lemma py_eq_int_tuples (xs ys : list Z) :
  py_eq (VTuple (VInt <$> xs)) (VTuple (VInt <$> ys)) = bool_decide (xs = ys).
Proof.
  cbn [py_eq]. revert ys.
  induction xs as [|x xs IH]; intros [|y ys]; cbn; try done.
  rewrite IH. destruct (Z.eqb_spec x y) as [->|Hne]; cbn.
  - apply bool_decide_ext. split; [by intros ->|by intros [= ->]].
  - symmetry. apply bool_decide_eq_false. by intros [= ? _].
Qed.

Section ScalingShapes.

(** The same decoder layer, with the two weight shapes given as the tuples
    of integers [v_dims] and [o_dims]. *)

Variables (h : heap) (module input_feat module_kwargs : value).
Variables (input_layernorm self_attn q_proj k_proj v_proj o_proj : value).
Variables (v_dims o_dims : list Z) (block_sparse_moe experts : value).
Variables (inp_q inp_o inp_moe : value).
Variables (items : list value) (ps : list expert_parts).

Hypothesis H_ln : attr h module "input_layernorm" = Some input_layernorm.
Hypothesis H_attn : attr h module "self_attn" = Some self_attn.
Hypothesis H_q : attr h self_attn "q_proj" = Some q_proj.
Hypothesis H_k : attr h self_attn "k_proj" = Some k_proj.
Hypothesis H_v : attr h self_attn "v_proj" = Some v_proj.
Hypothesis H_o : attr h self_attn "o_proj" = Some o_proj.
Hypothesis H_v_shape :
  path h v_proj ["weight"; "shape"] = Some (VTuple (VInt <$> v_dims)).
Hypothesis H_o_shape :
  path h o_proj ["weight"; "shape"] = Some (VTuple (VInt <$> o_dims)).
Hypothesis H_moe : attr h module "block_sparse_moe" = Some block_sparse_moe.
Hypothesis H_experts : attr h block_sparse_moe "experts" = Some experts.
Hypothesis H_items : elements h experts = Ok items.
Hypothesis H_inp_q : item h input_feat "self_attn.q_proj" = Ok inp_q.
Hypothesis H_inp_o :
  v_dims = o_dims → item h input_feat "self_attn.o_proj" = Ok inp_o.
Hypothesis H_inp_moe : item h input_feat "block_sparse_moe" = Ok inp_moe.
Hypothesis H_len : length ps = length items.
Hypothesis H_ps : ∀ i e p,
  items !! i = Some e → ps !! i = Some p → expert_at h input_feat i e p.

Local Abbreviation attn_in :=
  (attn_in_desc input_layernorm q_proj k_proj v_proj inp_q self_attn
     module_kwargs).
Local Abbreviation attn_out := (attn_out_desc v_proj o_proj inp_o).
Local Abbreviation moe := (moe_desc block_sparse_moe experts inp_moe).

(** The result, by the dimensions of the two weights. *)
Lemma get_layers_for_scaling_by_dims :
  get_layers_for_scaling module input_feat module_kwargs h =
  (Ok (attn_in ::
       (if bool_decide (v_dims = o_dims) then [attn_out] else []) ++
       moe :: map expert_desc ps), h).
Proof using All.
  rewrite <- py_eq_int_tuples.
  apply (get_layers_for_scaling_run h module input_feat module_kwargs
           input_layernorm self_attn q_proj k_proj v_proj o_proj
           (VTuple (VInt <$> v_dims)) (VTuple (VInt <$> o_dims))
           block_sparse_moe experts inp_q inp_o inp_moe items ps);
    try done.
  rewrite py_eq_int_tuples. intros Heq. apply H_inp_o.
  by apply bool_decide_eq_true in Heq.
Qed.

(** C3: the only branch of [get_layers_for_scaling] is the comparison of
    the weight shapes of [v_proj] and [o_proj], two tuples of integers:
    when the shapes are equal the descriptor with [prev_op = v_proj],
    [layers = [o_proj]] follows the first one, when they differ it is left
    out; the other descriptors are the same in both cases. *)
Theorem get_layers_for_scaling_shape_branch :
  (v_dims = o_dims →
   get_layers_for_scaling module input_feat module_kwargs h =
   (Ok (attn_in :: attn_out :: moe :: map expert_desc ps), h)) ∧
  (v_dims ≠ o_dims →
   get_layers_for_scaling module input_feat module_kwargs h =
   (Ok (attn_in :: moe :: map expert_desc ps), h)).
Proof using All.
  rewrite get_layers_for_scaling_by_dims. split; intros Hd.
  - by rewrite bool_decide_eq_true_2.
  - by rewrite bool_decide_eq_false_2.
Qed.

(** C8: with [n] experts the result has [3 + n] descriptors when the two
    shapes are equal and [2 + n] when they differ; the first one groups
    [q_proj], [k_proj], [v_proj] under [input_layernorm]; the last [n] are
    one per expert, in order: the one of expert [i] has [prev_op = w3],
    [layers = [w2]] and the input found under the key
    [block_sparse_moe.experts.{i}.w2]. *)
Theorem get_layers_for_scaling_descriptors :
  ∃ ds k,
    get_layers_for_scaling module input_feat module_kwargs h = (Ok ds, h) ∧
    (v_dims = o_dims → k = 3) ∧
    (v_dims ≠ o_dims → k = 2) ∧
    length ds = k + length items ∧
    ds !! 0 =
      Some [("prev_op", input_layernorm);
            ("layers", VList [q_proj; k_proj; v_proj]);
            ("inp", inp_q); ("module2inspect", self_attn);
            ("kwargs", module_kwargs)] ∧
    ∀ i expert, items !! i = Some expert →
      ∃ w3 w2 inp,
        attr h expert "w3" = Some w3 ∧
        attr h expert "w2" = Some w2 ∧
        item h input_feat
          ("block_sparse_moe.experts." +:+ str_of_nat i +:+ ".w2") = Ok inp ∧
        ds !! (k + i) =
          Some [("prev_op", w3); ("layers", VList [w2]); ("inp", inp)].
Proof using All.
  eexists _, (if bool_decide (v_dims = o_dims) then 3 else 2).
  split; [apply get_layers_for_scaling_by_dims|].
  split; [intros Hd; by rewrite bool_decide_eq_true_2|].
  split; [intros Hd; by rewrite bool_decide_eq_false_2|].
  split; [|split; [done|]].
  - cbn. rewrite length_app, length_cons, length_map, H_len.
    destruct (bool_decide (v_dims = o_dims)); cbn; lia.
  - intros i e He.
    destruct (lookup_lt_is_Some_2 ps i) as [p Hp].
    { rewrite H_len. by eapply lookup_lt_Some. }
    destruct (H_ps i e p He Hp) as (Hw3 & Hw2 & Hinp).
    exists (e_w3 p), (e_w2 p), (e_inp p). repeat split; try done.
    assert (El : ∀ pre : list pydict,
               (pre ++ map expert_desc ps) !! (length pre + i) =
               Some (expert_desc p)).
    { intros pre. rewrite lookup_app_r by lia.
      replace (length pre + i - length pre) with i by lia.
      by rewrite list_lookup_fmap, Hp. }
    destruct (bool_decide (v_dims = o_dims)).
    + apply (El [attn_in; attn_out; moe]).
    + apply (El [attn_in; moe]).
Qed.

End ScalingShapes.

Example w2_key_0 : w2_key 0 = "block_sparse_moe.experts.0.w2".
Proof. reflexivity. Qed.

Example w2_key_12 : w2_key 12 = "block_sparse_moe.experts.12.w2".
Proof. reflexivity. Qed.

Lemma get_model_layers_returns_layers_witness :
  get_model_layers "4.37.2" (VRef 0) Sample.store = (Ok (VRef 3), Sample.store).
Proof.
  eapply (get_model_layers_returns_layers "4.37.2" Sample.store 0 1);
    vm_compute; reflexivity.
Defined.

Lemma get_moe_for_scaling_record_witness :
  ∃ d, get_moe_for_scaling (VRef 6) Sample.store = (Ok d, Sample.store) ∧
       d.*1 = ["scale_name"; "scale_layer"; "scale_shape"] ∧
       d = [("scale_name", VStr "block_sparse_moe");
            ("scale_layer", VRef 11);
            ("scale_shape", VTuple [VInt 2; VInt 4096])].
Proof.
  apply (get_moe_for_scaling_record Sample.store (VRef 6) (VRef 11));
    vm_compute; reflexivity.
Defined.

Ltac sample_experts :=
  intros [|[|i]] e p He Hp; cbn in He, Hp; try discriminate;
  injection He as <-; injection Hp as <-; vm_compute; auto.

Lemma get_layers_for_scaling_shape_branch_witness :
  get_layers_for_scaling (VRef 27) (VRef 22) VNone Sample.store_equal_shapes =
  (Ok [ [("prev_op", VRef 8); ("layers", VList [VRef 14; VRef 15; VRef 14]);
         ("inp", VRef 12); ("module2inspect", VRef 26); ("kwargs", VNone)];
        [("prev_op", VRef 14); ("layers", VList [VRef 24]); ("inp", VRef 18)];
        [("prev_op", VRef 11); ("layers", VRef 17); ("inp", VRef 19);
         ("module2inspect", VRef 11)];
        [("prev_op", VRef 15); ("layers", VList [VRef 14]); ("inp", VRef 4)];
        [("prev_op", VRef 14); ("layers", VList [VRef 15]); ("inp", VRef 5)] ],
   Sample.store_equal_shapes) ∧
  get_layers_for_scaling (VRef 6) (VRef 22) VNone Sample.store_equal_shapes =
  (Ok [ [("prev_op", VRef 8); ("layers", VList [VRef 14; VRef 15; VRef 15]);
         ("inp", VRef 12); ("module2inspect", VRef 10); ("kwargs", VNone)];
        [("prev_op", VRef 11); ("layers", VRef 17); ("inp", VRef 19);
         ("module2inspect", VRef 11)];
        [("prev_op", VRef 15); ("layers", VList [VRef 14]); ("inp", VRef 4)];
        [("prev_op", VRef 14); ("layers", VList [VRef 15]); ("inp", VRef 5)] ],
   Sample.store_equal_shapes).
Proof.
  split.
  - apply (get_layers_for_scaling_shape_branch Sample.store_equal_shapes
             (VRef 27) (VRef 22) VNone (VRef 8) (VRef 26) (VRef 14) (VRef 15)
             (VRef 14) (VRef 24) [4096; 4096]%Z [4096; 4096]%Z
             (VRef 11) (VRef 17) (VRef 12) (VRef 18) (VRef 19)
             [VRef 20; VRef 21] Sample.experts).
    1-12: vm_compute; reflexivity.
    + intros _. vm_compute; reflexivity.
    + vm_compute; reflexivity.
    + vm_compute; reflexivity.
    + sample_experts.
    + reflexivity.
  - apply (get_layers_for_scaling_shape_branch Sample.store_equal_shapes
             (VRef 6) (VRef 22) VNone (VRef 8) (VRef 10) (VRef 14) (VRef 15)
             (VRef 15) (VRef 14) [1024; 4096]%Z [4096; 4096]%Z
             (VRef 11) (VRef 17) (VRef 12) VNone (VRef 19)
             [VRef 20; VRef 21] Sample.experts).
    1-12: vm_compute; reflexivity.
    + intros [=].
    + vm_compute; reflexivity.
    + vm_compute; reflexivity.
    + sample_experts.
    + intros [=].
Defined.

Lemma get_layers_for_scaling_descriptors_witness :
  (∃ ds k,
    get_layers_for_scaling (VRef 27) (VRef 22) VNone Sample.store_equal_shapes =
      (Ok ds, Sample.store_equal_shapes) ∧
    ([4096; 4096]%Z = [4096; 4096]%Z → k = 3) ∧
    ([4096; 4096]%Z ≠ [4096; 4096]%Z → k = 2) ∧
    length ds = k + length [VRef 20; VRef 21] ∧
    ds !! 0 =
      Some [("prev_op", VRef 8); ("layers", VList [VRef 14; VRef 15; VRef 14]);
            ("inp", VRef 12); ("module2inspect", VRef 26); ("kwargs", VNone)] ∧
    ∀ i expert, [VRef 20; VRef 21] !! i = Some expert →
      ∃ w3 w2 inp,
        attr Sample.store_equal_shapes expert "w3" = Some w3 ∧
        attr Sample.store_equal_shapes expert "w2" = Some w2 ∧
        item Sample.store_equal_shapes (VRef 22)
          ("block_sparse_moe.experts." +:+ str_of_nat i +:+ ".w2") = Ok inp ∧
        ds !! (k + i) =
          Some [("prev_op", w3); ("layers", VList [w2]); ("inp", inp)]) ∧
  (∃ ds k,
    get_layers_for_scaling (VRef 6) (VRef 22) VNone Sample.store_equal_shapes =
      (Ok ds, Sample.store_equal_shapes) ∧
    ([1024; 4096]%Z = [4096; 4096]%Z → k = 3) ∧
    ([1024; 4096]%Z ≠ [4096; 4096]%Z → k = 2) ∧
    length ds = k + length [VRef 20; VRef 21] ∧
    ds !! 0 =
      Some [("prev_op", VRef 8); ("layers", VList [VRef 14; VRef 15; VRef 15]);
            ("inp", VRef 12); ("module2inspect", VRef 10); ("kwargs", VNone)] ∧
    ∀ i expert, [VRef 20; VRef 21] !! i = Some expert →
      ∃ w3 w2 inp,
        attr Sample.store_equal_shapes expert "w3" = Some w3 ∧
        attr Sample.store_equal_shapes expert "w2" = Some w2 ∧
        item Sample.store_equal_shapes (VRef 22)
          ("block_sparse_moe.experts." +:+ str_of_nat i +:+ ".w2") = Ok inp ∧
        ds !! (k + i) =
          Some [("prev_op", w3); ("layers", VList [w2]); ("inp", inp)]).
Proof.
  split.
  - apply (get_layers_for_scaling_descriptors Sample.store_equal_shapes
             (VRef 27) (VRef 22) VNone (VRef 8) (VRef 26) (VRef 14) (VRef 15)
             (VRef 14) (VRef 24) [4096; 4096]%Z [4096; 4096]%Z
             (VRef 11) (VRef 17) (VRef 12) (VRef 18) (VRef 19)
             [VRef 20; VRef 21] Sample.experts).
    1-12: vm_compute; reflexivity.
    + intros _. vm_compute; reflexivity.
    + vm_compute; reflexivity.
    + vm_compute; reflexivity.
    + sample_experts.
  - apply (get_layers_for_scaling_descriptors Sample.store_equal_shapes
             (VRef 6) (VRef 22) VNone (VRef 8) (VRef 10) (VRef 14) (VRef 15)
             (VRef 15) (VRef 14) [1024; 4096]%Z [4096; 4096]%Z
             (VRef 11) (VRef 17) (VRef 12) VNone (VRef 19)
             [VRef 20; VRef 21] Sample.experts).
    1-12: vm_compute; reflexivity.
    + intros [=].
    + vm_compute; reflexivity.
    + vm_compute; reflexivity.
    + sample_experts.
Defined.

(** ** How reads behave when the store grows or an object is updated *)

Lemma attr_app h t v name x :
  attr h v name = Some x → attr (h ++ t) v name = Some x.
Proof.
  destruct v; try done. cbn.
  destruct (h !! l) as [c|] eqn:E; [|done].
  by rewrite (lookup_app_l_Some _ _ _ _ E).
Qed.

Lemma path_app h t names : ∀ v x,
  path h v names = Some x → path (h ++ t) v names = Some x.
Proof.
  induction names as [|n ns IH]; intros v x; cbn; [done|].
  destruct (attr h v n) as [y|] eqn:E; [|done].
  rewrite (attr_app _ t _ _ _ E). apply IH.
Qed.

Lemma attr_insert_ne (h : heap) l l' c name :
  l ≠ l' → attr (<[l := c]> h) (VRef l') name = attr h (VRef l') name.
Proof. intros Hne. cbn. by rewrite list_lookup_insert_ne. Qed.

Lemma attr_insert_eq (h : heap) l a name :
  l < length h →
  attr (<[l := CObject a]> h) (VRef l) name = a !! name.
Proof. intros Hlt. cbn. by rewrite list_lookup_insert_eq. Qed.

Lemma snoc4 {A} (l : list A) a b c d :
  (((l ++ [a]) ++ [b]) ++ [c]) ++ [d] = l ++ [a; b; c; d].
Proof. by rewrite <- !app_assoc. Qed.

Lemma attr_ref h v name x : attr h v name = Some x → ∃ l, v = VRef l ∧ l < length h.
Proof.
  destruct v; try done. cbn. destruct (h !! l) as [c|] eqn:E; [|done].
  intros _. exists l. split; [done|]. by eapply lookup_lt_Some.
Qed.

(** ** MixtralFuser *)

Lemma config_at_app h t self c : config_at h self c → config_at (h ++ t) self c.
Proof.
  intros (H1 & H2 & H3 & H4 & H5). repeat split; by apply path_app.
Qed.

Section FuserProperties.

Variable state_dict_values : heap → value → result (list value).
Variable fuse_qkv : heap → value → value → value → value → cell.
Variable FasterTransformerRMSNorm : heap → value → value → cell.
Variable MixtralBlock : heap → pydict → cell.
Variable MixtralModel : heap → value → value → value → value → cell.

Let fuse_layer :=
  MixtralFuser.fuse_layer state_dict_values fuse_qkv FasterTransformerRMSNorm
    MixtralBlock.
Let fuse_loop :=
  MixtralFuser.fuse_loop state_dict_values fuse_qkv FasterTransformerRMSNorm
    MixtralBlock.
Let fuse_transformer :=
  MixtralFuser.fuse_transformer state_dict_values fuse_qkv
    FasterTransformerRMSNorm MixtralBlock MixtralModel.

Local Abbreviation ready := (layer_at state_dict_values).
Local Abbreviation cells :=
  (layer_cells fuse_qkv FasterTransformerRMSNorm MixtralBlock).
Local Abbreviation all_cells :=
  (loop_cells fuse_qkv FasterTransformerRMSNorm MixtralBlock).
Local Abbreviation built :=
  (built_from fuse_qkv FasterTransformerRMSNorm MixtralBlock).

(** *** The loop only adds objects *)

Lemma bind_prefix {A B} (m : M A) (k : A → M B) :
  (∀ h, h `prefix_of` (m h).2) → (∀ a h, h `prefix_of` (k a h).2) →
  ∀ h, h `prefix_of` (bind m k h).2.
Proof.
  intros Hm Hk h. unfold bind. specialize (Hm h).
  destruct (m h) as [[a|e] h1]; cbn in Hm; [|done].
  etrans; [exact Hm|apply Hk].
Qed.

Lemma read_only_prefix {A} (m : M A) :
  read_only m → ∀ h, h `prefix_of` (m h).2.
Proof. intros Hm h. by rewrite Hm. Qed.

Lemma construct_prefix new h : h `prefix_of` (MixtralFuser.construct new h).2.
Proof. by apply prefix_app_r. Qed.

Lemma fuse_layer_prefix self module h :
  h `prefix_of` (fuse_layer self module h).2.
Proof.
  revert h. unfold fuse_layer, MixtralFuser.fuse_layer.
  repeat first
    [ apply construct_prefix
    | intros h; apply construct_prefix
    | apply bind_prefix; [|intros ?]
    | apply read_only_prefix; solve [auto with read_only | by intros ? | by destruct a] ].
Qed.

Lemma fuse_loop_prefix self modules : ∀ blocks h,
  h `prefix_of` (fuse_loop self modules blocks h).2.
Proof.
  induction modules as [|module rest IH]; intros blocks h; cbn; [done|].
  revert h. apply bind_prefix; [apply fuse_layer_prefix|].
  intros block h. apply IH.
Qed.

(** *** One iteration *)

(** Objects added to the store do not change what [state_dict] gives for
    a module that was already there. *)
Hypothesis state_dict_stable : ∀ h t module tensors,
  state_dict_values h module = Ok tensors →
  state_dict_values (h ++ t) module = Ok tensors.

Lemma layer_at_app h t module p :
  ready h module p → ready (h ++ t) module p.
Proof using state_dict_stable.
  intros ((first & rest & Hsd & Hdev) & Hrest). split.
  - exists first, rest. split; [by apply state_dict_stable|by apply attr_app].
  - destruct Hrest as (?&?&?&?&?&?&?&?&?).
    repeat split; try by apply path_app. by apply attr_app.
Qed.

Lemma bind_construct {B} new (k : value → M B) h :
  bind (MixtralFuser.construct new) k h = k (VRef (length h)) (h ++ [new h]).
Proof. reflexivity. Qed.

Lemma fuse_layer_run h self module c p :
  ready h module p → config_at h self c →
  fuse_layer self module h =
  (Ok (VRef (length h + 3)), h ++ cells h c module p).
Proof using state_dict_stable.
  intros Hl Hc. unfold fuse_layer, MixtralFuser.fuse_layer.
  destruct (Hl) as ((first & rest & Hsd & Hdev) & Hq & Hk & Hv & _).
  rewrite (bind_ok _ _ h (first :: rest) h) by (by rewrite Hsd).
  rewrite (bind_ok _ _ h first h) by done.
  rewrite (bind_getattr _ _ _ _ _ Hdev).
  rewrite (bind_getpath _ _ _ _ _ Hq), (bind_getpath _ _ _ _ _ Hk),
    (bind_getpath _ _ _ _ _ Hv).
  rewrite bind_construct.
  set (qkv := fuse_qkv h module (p_q p) (p_k p) (p_v p)).
  apply (layer_at_app _ [qkv]) in Hl. apply (config_at_app _ [qkv]) in Hc.
  destruct (Hl) as (_ & _ & _ & _ & Hw1 & He1 & _).
  rewrite (bind_getpath _ _ _ _ _ Hw1), (bind_getpath _ _ _ _ _ He1).
  rewrite bind_construct.
  set (norm_1 := FasterTransformerRMSNorm (h ++ [qkv]) (p_w1 p) (p_eps1 p)).
  apply (layer_at_app _ [norm_1]) in Hl. apply (config_at_app _ [norm_1]) in Hc.
  destruct (Hl) as (_ & _ & _ & _ & _ & _ & Hw2 & He2 & _).
  rewrite (bind_getpath _ _ _ _ _ Hw2), (bind_getpath _ _ _ _ _ He2).
  rewrite bind_construct.
  set (norm_2 := FasterTransformerRMSNorm ((h ++ [qkv]) ++ [norm_1]) (p_w2 p) (p_eps2 p)).
  apply (layer_at_app _ [norm_2]) in Hl. apply (config_at_app _ [norm_2]) in Hc.
  destruct Hl as (_ & _ & _ & _ & _ & _ & _ & _ & Ho & Hmoe).
  destruct Hc as (Hhs & Hnh & Hnkv & Hmsl & Hrt).
  rewrite (bind_getpath _ _ _ _ _ Hhs), (bind_getpath _ _ _ _ _ Hnh),
    (bind_getpath _ _ _ _ _ Hnkv), (bind_getpath _ _ _ _ _ Ho),
    (bind_getattr _ _ _ _ _ Hmoe), (bind_getpath _ _ _ _ _ Hmsl),
    (bind_getpath _ _ _ _ _ Hrt).
  unfold MixtralFuser.construct, alloc, layer_cells.
  rewrite !length_app. cbn [length].
  replace (length h + 1 + 1 + 1) with (length h + 3) by lia.
  replace (length h + 1 + 1) with (length h + 2) by lia.
  f_equal. subst qkv norm_1 norm_2. apply snoc4.
Qed.

(** *** The loop *)

Lemma block_refs_S base n :
  block_refs base (S n) = VRef (base + 3) :: block_refs (base + 4) n.
Proof.
  unfold block_refs. cbn [seq fmap list_fmap]. f_equal; [f_equal; lia|].
  rewrite <- fmap_S_seq, <- list_fmap_compose.
  apply list_fmap_ext. intros _ i _. cbn. f_equal. lia.
Qed.

Lemma fuse_loop_run self c modules : ∀ ps h blocks,
  Forall2 (ready h) modules ps → config_at h self c →
  fuse_loop self modules blocks h =
  (Ok (blocks ++ block_refs (length h) (length modules)),
   h ++ all_cells h c modules ps).
Proof using state_dict_stable.
  induction modules as [|module rest IH]; intros ps h blocks Hps Hc.
  - apply Forall2_nil_inv_l in Hps as ->. cbn. by rewrite !app_nil_r.
  - apply Forall2_cons_inv_l in Hps as (p & ps' & Hp & Hps & ->).
    cbn [fuse_loop MixtralFuser.fuse_loop loop_cells length].
    unfold fuse_loop in *. cbn [MixtralFuser.fuse_loop].
    rewrite (bind_ok _ _ _ _ _ (fuse_layer_run h self module c p Hp Hc)).
    rewrite (IH ps').
    + rewrite block_refs_S, <- !app_assoc, length_app. cbn. done.
    + eapply Forall2_impl; [exact Hps|]. intros m q. apply layer_at_app.
    + by apply config_at_app.
Qed.

Lemma loop_cells_lookup c modules : ∀ ps h i module p,
  modules !! i = Some module → ps !! i = Some p →
  ∃ hq t, length hq = length h + 4 * i ∧
          h ++ all_cells h c modules ps = hq ++ cells hq c module p ++ t.
Proof.
  induction modules as [|m rest IH]; intros [|q ps] h i module p Hm Hp;
    try done.
  destruct i as [|i]; cbn in Hm, Hp.
  - injection Hm as ->. injection Hp as ->.
    exists h, (all_cells (h ++ cells h c module p) c rest ps).
    split; [lia|done].
  - destruct (IH ps (h ++ cells h c m q) i module p Hm Hp)
      as (hq & t & Hlen & Heq).
    exists hq, t. split.
    + rewrite Hlen, length_app. cbn. lia.
    + cbn [loop_cells]. by rewrite app_assoc.
Qed.

Lemma built_from_cells (hq' hq t : heap) c module p :
  length hq' = length hq →
  built (hq' ++ cells hq c module p ++ t) c module p
    (VRef (length hq + 3)).
Proof.
  intros Hlen. exists (length hq). do 4 eexists.
  assert (El : ∀ j, (hq' ++ cells hq c module p ++ t) !! (length hq + j) =
                    (cells hq c module p ++ t) !! j).
  { intros j. rewrite lookup_app_r by lia. f_equal. lia. }
  rewrite <- (Nat.add_0_r (length hq)) at 1.
  rewrite !El. cbn. done.
Qed.

(** *** Lines 143-149: putting the fused model in place *)

Lemma install_run (h : heap) self lm am (fused : cell) :
  attr h self "model" = Some (VRef lm) →
  self ≠ VRef lm →
  h !! lm = Some (CObject am) →
  (let* target := getattr self "model" in
   do setattr target "model" (VRef (length h)) then
   let* fused_model := getpath self ["model"; "model"] in
   let* fused_blocks := getpath self ["model"; "model"; "blocks"] in
   setattr fused_model "blocks" fused_blocks) (h ++ [fused]) =
  (match blocks_attr fused with
   | Some _ => Ok tt
   | None => Raise AttributeError
   end,
   <[lm := CObject (<["model" := VRef (length h)]> am)]> (h ++ [fused])).
Proof.
  intros Hself Hne Hm.
  destruct (attr_ref _ _ _ _ Hself) as (ls & -> & Hls).
  assert (Hlm : lm < length h) by (by eapply lookup_lt_Some).
  assert (Hne' : lm ≠ ls) by congruence.
  set (h2 := h ++ [fused]).
  set (h3 := <[lm := CObject (<["model" := VRef (length h)]> am)]> h2).
  assert (Hlm2 : lm < length h2) by (unfold h2; rewrite length_app; lia).
  rewrite (bind_getattr _ _ _ _ _ (attr_app _ [fused] _ _ _ Hself)).
  rewrite (bind_ok _ _ h2 tt h3).
  2:{ unfold setattr, h2. by rewrite (lookup_app_l_Some _ _ _ _ Hm). }
  assert (H1 : attr h3 (VRef ls) "model" = Some (VRef lm)).
  { unfold h3. rewrite attr_insert_ne by done. by apply attr_app. }
  assert (H2 : attr h3 (VRef lm) "model" = Some (VRef (length h))).
  { unfold h3. rewrite attr_insert_eq by done. by rewrite lookup_insert_eq. }
  assert (H3 : h3 !! length h = Some fused).
  { unfold h3. rewrite list_lookup_insert_ne by lia.
    unfold h2. by rewrite list_lookup_middle. }
  rewrite (bind_getpath _ _ _ _ (VRef (length h)))
    by (rewrite (path_cons _ _ _ _ _ H1), (path_cons _ _ _ _ _ H2); done).
  assert (H4 : path h3 (VRef ls) ["model"; "model"; "blocks"] = blocks_attr fused).
  { rewrite (path_cons _ _ _ _ _ H1), (path_cons _ _ _ _ _ H2).
    cbn. rewrite H3. unfold blocks_attr.
    destruct fused as [a| |]; [by destruct (a !! "blocks")|done..]. }
  destruct (blocks_attr fused) as [b|] eqn:Eb.
  - rewrite (bind_getpath _ _ _ _ _ H4).
    destruct fused as [a| |]; try discriminate. cbn in Eb.
    unfold setattr. rewrite H3. f_equal.
    rewrite (insert_id a "blocks" b Eb). by apply list_insert_id.
  - apply bind_raise. by rewrite getpath_run, H4.
Qed.

(** *** The whole of [fuse_transformer] on a well-formed model *)

Section Fusion.

(** A fuser [self] whose model (the object at [lm]) has the attributes
    that [fuse_transformer] reads, with decoder layers [modules]. *)
Variables (h : heap) (self : value) (lm : nat) (am : gmap string value).
Variables (inner layers embed_tokens norm vocab_size : value).
Variables (modules : list value) (ps : list layer_parts) (c : config_parts).

Hypothesis H_self : attr h self "model" = Some (VRef lm).
Hypothesis H_distinct : self ≠ VRef lm.
Hypothesis H_model : h !! lm = Some (CObject am).
Hypothesis H_inner : am !! "model" = Some inner.
Hypothesis H_layers : attr h inner "layers" = Some layers.
Hypothesis H_modules : elements h layers = Ok modules.
Hypothesis H_embed : attr h inner "embed_tokens" = Some embed_tokens.
Hypothesis H_norm : attr h inner "norm" = Some norm.
Hypothesis H_vocab :
  path h self ["model"; "config"; "vocab_size"] = Some vocab_size.
Hypothesis H_config : config_at h self c.
Hypothesis H_parts : Forall2 (ready h) modules ps.

(** Line 149 reads [blocks] from the new model: the constructor has to
    give it that attribute. *)
Hypothesis H_blocks : ∀ hm v bs e n,
  is_Some (blocks_attr (MixtralModel hm v bs e n)).

Let h1 : heap := h ++ all_cells h c modules ps.
Let blocks : list value := block_refs (length h) (length modules).
Let fused : cell :=
  MixtralModel h1 vocab_size (VList blocks) embed_tokens norm.

Lemma fuse_transformer_run :
  fuse_transformer self h =
  (Ok tt,
   <[lm := CObject (<["model" := VRef (length h1)]> am)]> (h1 ++ [fused])).
Proof using All.
  unfold fuse_transformer, MixtralFuser.fuse_transformer.
  assert (Hin : attr h (VRef lm) "model" = Some inner).
  { cbn. by rewrite H_model. }
  assert (Hp : ∀ n x, attr h inner n = Some x →
                      path h self ["model"; "model"; n] = Some x).
  { intros n x E. rewrite (path_cons _ _ _ _ _ H_self).
    rewrite (path_cons _ _ _ _ _ Hin). cbn. by rewrite E. }
  rewrite (bind_getpath _ _ _ _ _ (Hp _ _ H_layers)).
  rewrite (bind_iter_items _ _ _ _ H_modules).
  rewrite (bind_ok _ _ _ _ _ (fuse_loop_run self c modules ps h [] H_parts H_config)).
  fold h1. rewrite app_nil_l. fold blocks.
  assert (Hup : ∀ ns x, path h self ns = Some x → path h1 self ns = Some x).
  { intros ns x. apply path_app. }
  rewrite (bind_getpath _ _ _ _ _ (Hup _ _ H_vocab)).
  rewrite (bind_getpath _ _ _ _ _ (Hup _ _ (Hp _ _ H_embed))).
  rewrite (bind_getpath _ _ _ _ _ (Hup _ _ (Hp _ _ H_norm))).
  rewrite bind_construct. fold fused.
  rewrite (install_run h1 self lm am fused).
  - destruct (H_blocks h1 vocab_size (VList blocks) embed_tokens norm)
      as [b Hb]. fold fused in Hb. by rewrite Hb.
  - by apply attr_app.
  - done.
  - by apply lookup_app_l_Some.
Qed.

(** C5: on a model that has the attributes read by lines 109-149, the
    layers of [model.model.layers] are fused one after the other in their
    order: the call returns, the fused model has received one block per
    layer, and block [i] is the one built from layer [i]. *)
Theorem fuse_transformer_blocks_in_order :
  ∃ (h' : heap) (new : nat) (hm : heap) (bs : list value),
    fuse_transformer self h = (Ok tt, h') ∧
    attr h' (VRef lm) "model" = Some (VRef new) ∧
    h' !! new = Some (MixtralModel hm vocab_size (VList bs) embed_tokens norm) ∧
    length bs = length modules ∧
    ∀ i module p, modules !! i = Some module → ps !! i = Some p →
      ∃ block, bs !! i = Some block ∧
               block = VRef (length h + 4 * i + 3) ∧
               built h' c module p block.
Proof using All.
  assert (Hlm : lm < length h) by (by eapply lookup_lt_Some).
  assert (Hlm1 : lm < length h1) by (unfold h1; rewrite length_app; lia).
  eexists _, (length h1), h1, blocks.
  split; [apply fuse_transformer_run|]. split; [|split; [|split]].
  - rewrite attr_insert_eq by (rewrite length_app; lia).
    by rewrite lookup_insert_eq.
  - rewrite list_lookup_insert_ne by lia. by rewrite list_lookup_middle.
  - unfold blocks, block_refs. by rewrite length_fmap, length_seq.
  - intros i module p Hm Hp. eexists. split; [|split; [reflexivity|]].
    + unfold blocks, block_refs. rewrite list_lookup_fmap.
      rewrite lookup_seq_lt by (by eapply lookup_lt_Some). done.
    + destruct (loop_cells_lookup c modules ps h i module p Hm Hp)
        as (hq & t & Hlen & Heq).
      fold h1 in Heq. rewrite Heq, <- !app_assoc.
      rewrite insert_app_l by lia. rewrite <- Hlen.
      apply built_from_cells. by rewrite length_insert.
Qed.

End Fusion.

(** *** What [fuse_transformer] changes, whatever its outcome *)

Lemma bind_inv_read {A B} (m : M A) (k : A → M B) h r h' :
  read_only m → bind m k h = (r, h') →
  (∃ a, m h = (Ok a, h) ∧ k a h = (r, h')) ∨ (h' = h ∧ ∃ e, r = Raise e).
Proof.
  intros Hm H. specialize (Hm h).
  apply bind_inv in H as [(a & h1 & E & H)|(e & E & ->)];
    rewrite E in Hm; cbn in Hm; subst.
  - left. by exists a.
  - right. split; [done|]. by exists e.
Qed.

(** C6: for a fuser that is not itself the model, and whether the call
    returns or raises: of the objects that exist before the call,
    [fuse_transformer] changes only the model, and of the model only the
    attribute [model], which it still has afterwards; when the call
    returns, that attribute is a new object made by [MixtralModel] from
    the [embed_tokens] and [norm] of the old [model.model]. *)
Theorem fuse_transformer_frame (h h' : heap) (self : value) (lm : nat)
    (am : gmap string value) (embed_tokens norm : value) (r : result unit) :
  attr h self "model" = Some (VRef lm) →
  self ≠ VRef lm →
  h !! lm = Some (CObject am) →
  path h (VRef lm) ["model"; "embed_tokens"] = Some embed_tokens →
  path h (VRef lm) ["model"; "norm"] = Some norm →
  fuse_transformer self h = (r, h') →
  (∀ l, l < length h → l ≠ lm → h' !! l = h !! l) ∧
  ∃ am', h' !! lm = Some (CObject am') ∧
         (∀ k, k ≠ "model" → am' !! k = am !! k) ∧
         is_Some (am' !! "model") ∧
         (r = Ok tt →
          ∃ new hm vocab_size blocks,
            length h ≤ new ∧
            am' !! "model" = Some (VRef new) ∧
            h' !! new =
              Some (MixtralModel hm vocab_size (VList blocks) embed_tokens norm)).
Proof.
  intros Hself Hne Hm Hembed Hnorm H.
  assert (Hlm : lm < length h) by (by eapply lookup_lt_Some).
  assert (Hhas : is_Some (am !! "model")).
  { cbn in Hembed. rewrite Hm in Hembed.
    destruct (am !! "model"); [done|discriminate]. }
  assert (Hfail : ∀ h'' e, h `prefix_of` h'' →
    (∀ l, l < length h → l ≠ lm → h'' !! l = h !! l) ∧
    ∃ am', h'' !! lm = Some (CObject am') ∧
           (∀ k, k ≠ "model" → am' !! k = am !! k) ∧
           is_Some (am' !! "model") ∧
           (Raise e = Ok tt →
            ∃ new hm vocab_size blocks,
              length h ≤ new ∧
              am' !! "model" = Some (VRef new) ∧
              h'' !! new =
                Some (MixtralModel hm vocab_size (VList blocks) embed_tokens norm))).
  { intros h'' e [t ->]. split.
    - intros l Hl _. by apply lookup_app_l.
    - exists am. split; [by apply lookup_app_l_Some|]. by repeat split. }
  unfold fuse_transformer, MixtralFuser.fuse_transformer in H.
  apply bind_inv_read in H as [(layers & _ & H)|(-> & e & ->)];
    [|by apply Hfail|auto with read_only].
  apply bind_inv_read in H as [(modules & _ & H)|(-> & e & ->)];
    [|by apply Hfail|auto with read_only].
  apply bind_inv in H as [(blocks & h1 & E & H)|(e & E & ->)].
  2:{ pose proof (fuse_loop_prefix self modules [] h) as [t Ht].
      unfold fuse_loop in Ht. rewrite E in Ht. cbn in Ht. subst h'.
      apply Hfail. by exists t. }
  pose proof (fuse_loop_prefix self modules [] h) as [t Ht].
  unfold fuse_loop in Ht. rewrite E in Ht. cbn in Ht. subst h1. clear E.
  apply bind_inv_read in H as [(vocab_size & _ & H)|(-> & e & ->)];
    [|apply Hfail; by exists t|auto with read_only].
  assert (Hp : ∀ ns x, path h (VRef lm) ns = Some x →
                 path (h ++ t) self ("model" :: ns) = Some x).
  { intros ns x Hx.
    rewrite (path_cons _ _ _ _ _ (attr_app _ t _ _ _ Hself)).
    by apply path_app. }
  apply bind_inv_read in H as [(embed' & E1 & H)|(-> & e & ->)];
    [|apply Hfail; by exists t|auto with read_only].
  rewrite getpath_run, (Hp _ _ Hembed) in E1. injection E1 as <-.
  apply bind_inv_read in H as [(norm' & E2 & H)|(-> & e & ->)];
    [|apply Hfail; by exists t|auto with read_only].
  rewrite getpath_run, (Hp _ _ Hnorm) in E2. injection E2 as <-.
  rewrite bind_construct in H.
  rewrite (install_run (h ++ t) self lm am) in H;
    [|by apply attr_app|done|by apply lookup_app_l_Some].
  injection H as Hr <-.
  assert (Hlm' : lm < length ((h ++ t) ++
                   [MixtralModel (h ++ t) vocab_size (VList blocks) embed_tokens norm]))
    by (rewrite !length_app; lia).
  split.
  - intros l Hl Hne'. rewrite list_lookup_insert_ne by done.
    rewrite <- app_assoc. by apply lookup_app_l.
  - eexists. split; [by apply list_lookup_insert_eq|].
    split; [|split].
    + intros k Hk. by rewrite lookup_insert_ne.
    + rewrite lookup_insert_eq. by eexists.
    + intros _. exists (length (h ++ t)), (h ++ t), vocab_size, blocks.
      split; [rewrite length_app; lia|]. split; [by rewrite lookup_insert_eq|].
      rewrite list_lookup_insert_ne by (rewrite length_app; lia).
      by rewrite list_lookup_middle.
Qed.

End FuserProperties.


(** ** The fuser on the concrete store *)

Lemma sample_state_dict_stable h t module tensors :
  SampleFuser.state_dict_values h module = Ok tensors →
  SampleFuser.state_dict_values (h ++ t) module = Ok tensors.
Proof.
  unfold SampleFuser.state_dict_values.
  destruct (path h module ["input_layernorm"; "weight"]) as [w|] eqn:E;
    [|discriminate].
  by rewrite (path_app _ t _ _ _ E).
Defined.

Lemma sample_parts_at :
  Forall2 (layer_at SampleFuser.state_dict_values Sample.store)
    [VRef 6; VRef 7] SampleFuser.parts.
Proof.
  repeat constructor; try (exists (VRef 12), []; split);
    vm_compute; reflexivity.
Defined.

Lemma fuse_transformer_blocks_in_order_witness :
  ∃ (h' : heap) (new : nat) (hm : heap) (bs : list value),
    MixtralFuser.fuse_transformer SampleFuser.state_dict_values
      SampleFuser.fuse_qkv SampleFuser.FasterTransformerRMSNorm
      SampleFuser.MixtralBlock SampleFuser.MixtralModel (VRef 23) Sample.store =
      (Ok tt, h') ∧
    attr h' (VRef 0) "model" = Some (VRef new) ∧
    h' !! new =
      Some (SampleFuser.MixtralModel hm (VInt 32000) (VList bs) (VRef 4) (VRef 5)) ∧
    length bs = length [VRef 6; VRef 7] ∧
    ∀ i module p,
      [VRef 6; VRef 7] !! i = Some module → SampleFuser.parts !! i = Some p →
      ∃ block, bs !! i = Some block ∧
               block = VRef (length Sample.store + 4 * i + 3) ∧
               built_from SampleFuser.fuse_qkv
                 SampleFuser.FasterTransformerRMSNorm SampleFuser.MixtralBlock
                 h' SampleFuser.config module p block.
Proof.
  apply (fuse_transformer_blocks_in_order
           SampleFuser.state_dict_values SampleFuser.fuse_qkv
           SampleFuser.FasterTransformerRMSNorm SampleFuser.MixtralBlock
           SampleFuser.MixtralModel sample_state_dict_stable
           Sample.store (VRef 23) 0
           (list_to_map [("model", VRef 1); ("config", VRef 2)])
           (VRef 1) (VRef 3) (VRef 4) (VRef 5) (VInt 32000)
           [VRef 6; VRef 7] SampleFuser.parts SampleFuser.config).
  - vm_compute; reflexivity.
  - discriminate.
  - vm_compute; reflexivity.
  - vm_compute; reflexivity.
  - vm_compute; reflexivity.
  - vm_compute; reflexivity.
  - vm_compute; reflexivity.
  - vm_compute; reflexivity.
  - vm_compute; reflexivity.
  - vm_compute. repeat split.
  - apply sample_parts_at.
  - intros hm v bs e n. vm_compute. by eexists.
Defined.

Lemma fuse_transformer_frame_witness :
  let h' :=
    (MixtralFuser.fuse_transformer SampleFuser.state_dict_values
       SampleFuser.fuse_qkv SampleFuser.FasterTransformerRMSNorm
       SampleFuser.MixtralBlock SampleFuser.MixtralModel (VRef 23)
       Sample.store).2 in
  (∀ l, l < length Sample.store → l ≠ 0 → h' !! l = Sample.store !! l) ∧
  ∃ am', h' !! 0 = Some (CObject am') ∧
         (∀ k, k ≠ "model" →
               am' !! k =
               (list_to_map [("model", VRef 1); ("config", VRef 2)]
                  : gmap string value) !! k) ∧
         is_Some (am' !! "model") ∧
         (Ok tt = Ok tt →
          ∃ new hm vocab_size blocks,
            length Sample.store ≤ new ∧
            am' !! "model" = Some (VRef new) ∧
            h' !! new =
              Some (SampleFuser.MixtralModel hm vocab_size (VList blocks)
                      (VRef 4) (VRef 5))).
Proof.
  apply (fuse_transformer_frame
           SampleFuser.state_dict_values SampleFuser.fuse_qkv
           SampleFuser.FasterTransformerRMSNorm SampleFuser.MixtralBlock
           SampleFuser.MixtralModel Sample.store
           (MixtralFuser.fuse_transformer SampleFuser.state_dict_values
              SampleFuser.fuse_qkv SampleFuser.FasterTransformerRMSNorm
              SampleFuser.MixtralBlock SampleFuser.MixtralModel (VRef 23)
              Sample.store).2
           (VRef 23) 0 (list_to_map [("model", VRef 1); ("config", VRef 2)])
           (VRef 4) (VRef 5) (Ok tt)).
  - vm_compute; reflexivity.
  - discriminate.
  - vm_compute; reflexivity.
  - vm_compute; reflexivity.
  - vm_compute; reflexivity.
  - vm_compute; reflexivity.
Defined.

(** * Further properties *)

(** ** The version guard, outcome by outcome *)

(** X2: the guard returns exactly when the version unpacks and either the
    major number is not 4, or it is 4 and the minor number is at least 37. *)
Theorem version_check_passes_iff version :
  _transformers_version_check version = Ok tt ↔
  ∃ major minor patch ma,
    unpack (split_dot version) = Ok (major, minor, patch) ∧
    py_int major = Some ma ∧
    (ma ≠ 4%Z ∨ ∃ mi, py_int minor = Some mi ∧ (37 ≤ mi)%Z).
Proof.
  unfold _transformers_version_check. split.
  - destruct (unpack (split_dot version)) as [[[major minor] patch]|e] eqn:E;
      [|discriminate].
    destruct (py_int major) as [ma|] eqn:Ema; [|discriminate].
    destruct (Z.eqb_spec ma 4) as [->|Hne].
    + destruct (py_int minor) as [mi|] eqn:Emi; [|discriminate].
      destruct (Z.ltb_spec mi 37); [discriminate|].
      intros _. exists major, minor, patch, 4%Z. eauto 10.
    + intros _. exists major, minor, patch, ma. eauto.
  - intros (major & minor & patch & ma & -> & -> & H).
    destruct (Z.eqb_spec ma 4) as [->|Hne]; [|done].
    destruct H as [H|(mi & -> & Hmi)]; [done|].
    by destruct (Z.ltb_spec mi 37); [lia|].
Qed.

(** X3: the guard ends in a [ValueError] exactly when the version has neither
    three nor four components, or the major component is not an integer
    literal, or the major number is 4 and the minor component is not an
    integer literal. *)
Theorem version_check_value_error_iff version :
  _transformers_version_check version = Raise ValueError ↔
  (length (split_dot version) ≠ 3 ∧ length (split_dot version) ≠ 4) ∨
  ∃ major minor patch,
    unpack (split_dot version) = Ok (major, minor, patch) ∧
    (py_int major = None ∨ (py_int major = Some 4%Z ∧ py_int minor = None)).
Proof.
  unfold _transformers_version_check. split.
  - destruct (unpack (split_dot version)) as [[[major minor] patch]|e] eqn:E.
    + intros H. right. exists major, minor, patch. split; [done|].
      destruct (py_int major) as [ma|] eqn:Ema; [|by left].
      destruct (Z.eqb_spec ma 4) as [->|Hne]; [|discriminate].
      destruct (py_int minor) as [mi|] eqn:Emi; [|by right].
      by destruct (Z.ltb_spec mi 37).
    + intros _. left.
      split; intros Hlen;
        destruct (split_dot version) as [|a [|b [|c [|d [|x tv]]]]];
        cbn in E, Hlen; congruence.
  - intros [[H3 H4]|(major & minor & patch & -> & H)].
    + by rewrite (unpack_raise_length _ H3 H4).
    + destruct H as [->|[-> ->]]; done.
Qed.

(** *** Versions written from numbers *)

Lemma split_dot_nonempty s : split_dot s ≠ [].
Proof.
  destruct s as [|c r]; cbn; [done|].
  destruct (Ascii.eqb c "."); [done|]. by destruct (split_dot r).
Qed.

Lemma split_dot_dot_free s : dot_free s = true → split_dot s = [s].
Proof.
  induction s as [|c r IH]; cbn; [done|].
  destruct (Ascii.eqb c "."); cbn; [done|]. intros H. by rewrite (IH H).
Qed.

Lemma split_dot_app a b :
  dot_free a = true → split_dot (a +:+ String "." b) = a :: split_dot b.
Proof.
  induction a as [|c r IH]; [done|].
  change (String c r +:+ String "." b) with (String c (r +:+ String "." b)).
  cbn [dot_free split_dot].
  destruct (Ascii.eqb c "."); cbn [negb andb]; [done|].
  intros H. by rewrite (IH H).
Qed.

Lemma string_of_uint_dot_free d : dot_free (NilEmpty.string_of_uint d) = true.
Proof. induction d; cbn; auto. Qed.

Lemma rstrip_digits d :
  rstrip (NilEmpty.string_of_uint d) = NilEmpty.string_of_uint d.
Proof.
  induction d; cbn [NilEmpty.string_of_uint rstrip]; [done|..];
    rewrite IHd; by destruct (NilEmpty.string_of_uint d).
Qed.

Lemma lstrip_digits d :
  lstrip (NilEmpty.string_of_uint d) = NilEmpty.string_of_uint d.
Proof. by destruct d. Qed.

Lemma digits_string_of_uint d : ∀ (n : nat) (b : bool),
  d ≠ Decimal.Nil ∨ b = true →
  digits (Z.of_nat n) b (NilEmpty.string_of_uint d) =
  Some (Z.of_nat (Nat.of_uint_acc d n)).
Proof.
  induction d; intros n b Hb;
    cbn [NilEmpty.string_of_uint digits Nat.of_uint_acc];
    [by destruct Hb as [?| ->]|..];
    rewrite Nat.tail_mul_spec;
    match goal with
    | |- context [digit_of ?c] =>
        let v := eval vm_compute in (digit_of c) in
        change (digit_of c) with v
    end;
    cbv iota beta;
    match goal with
    | |- digits ?z true _ = Some (Z.of_nat (Nat.of_uint_acc _ ?m)) =>
        replace z with (Z.of_nat m) by lia
    end;
    apply IHd; by right.
Qed.

(** [int(str(n)) == n] *)
Lemma py_int_str_of_nat n : py_int (str_of_nat n) = Some (Z.of_nat n).
Proof.
  unfold py_int, str_of_nat. rewrite lstrip_digits, rstrip_digits.
  assert (Hnn : Nat.to_uint n ≠ Decimal.Nil).
  { rewrite <- (Unsigned.of_to n) at 1. rewrite Unsigned.to_of.
    apply unorm_nonnil. }
  pose proof (digits_string_of_uint (Nat.to_uint n) 0 false (or_introl Hnn)) as H.
  fold (Nat.of_uint (Nat.to_uint n)) in H. rewrite Unsigned.of_to in H.
  change (Z.of_nat 0) with 0%Z in H.
  destruct (Nat.to_uint n); try done.
Qed.

(** X4: a version written as [f"{ma}.{mi}.{patch}"], or with a fourth
    component [dev], is rejected with the guard's own error exactly when
    [ma] is 4 and [mi] is below 37, and passes otherwise. *)
Theorem version_check_numeric (ma mi : nat) (patch dev : string) :
  dot_free patch = true → dot_free dev = true →
  let outcome :=
    if (ma =? 4) && (mi <? 37) then Raise (Exception message) else Ok tt in
  _transformers_version_check
    (str_of_nat ma +:+ "." +:+ str_of_nat mi +:+ "." +:+ patch) = outcome ∧
  _transformers_version_check
    (str_of_nat ma +:+ "." +:+ str_of_nat mi +:+ "." +:+ patch +:+ "." +:+ dev)
    = outcome.
Proof.
  intros Hp Hd outcome.
  assert (Hs : ∀ n, dot_free (str_of_nat n) = true)
    by (intros n; apply string_of_uint_dot_free).
  assert (Hgo : ∀ rest, length rest ≤ 1 →
    match unpack (str_of_nat ma :: str_of_nat mi :: patch :: rest) with
    | Raise e => Raise e
    | Ok (major, minor, _) =>
        match py_int major with
        | None => Raise ValueError
        | Some a =>
            if (a =? 4)%Z then
              match py_int minor with
              | None => Raise ValueError
              | Some i =>
                  if (i <? 37)%Z then Raise (Exception message) else Ok tt
              end
            else Ok tt
        end
    end = outcome).
  { intros rest Hrest.
    assert (unpack (str_of_nat ma :: str_of_nat mi :: patch :: rest) =
            Ok (str_of_nat ma, str_of_nat mi, patch)) as ->.
    { destruct rest as [|x [|y rest]]; cbn in Hrest; [done|done|lia]. }
    rewrite !py_int_str_of_nat. subst outcome.
    destruct (Nat.eqb_spec ma 4) as [->|Hne]; cbn [andb].
    - change (Z.of_nat 4 =? 4)%Z with true. cbv iota.
      destruct (Nat.ltb_spec mi 37), (Z.ltb_spec (Z.of_nat mi) 37);
        (done || lia).
    - destruct (Z.eqb_spec (Z.of_nat ma) 4); [lia|done]. }
  assert (Hdot : ∀ x, "." +:+ x = String "." x) by done.
  split; unfold _transformers_version_check; rewrite !Hdot.
  - rewrite (split_dot_app _ _ (Hs ma)), (split_dot_app _ _ (Hs mi)),
      (split_dot_dot_free _ Hp).
    apply (Hgo []). cbn. lia.
  - rewrite (split_dot_app _ _ (Hs ma)), (split_dot_app _ _ (Hs mi)),
      (split_dot_app _ _ Hp), (split_dot_dot_free _ Hd).
    apply (Hgo [dev]). cbn. lia.
Qed.

Lemma version_check_numeric_witness :
  _transformers_version_check
    (str_of_nat 4 +:+ "." +:+ str_of_nat 36 +:+ "." +:+ "2") =
    Raise (Exception message) ∧
  _transformers_version_check
    (str_of_nat 4 +:+ "." +:+ str_of_nat 36 +:+ "." +:+ "2" +:+ "." +:+ "dev0") =
    Raise (Exception message).
Proof.
  apply (version_check_numeric 4 36 "2" "dev0"); reflexivity.
Defined.

(** *** The keys of line 94 *)

Lemma append_inj_l p a b : p +:+ a = p +:+ b → a = b.
Proof.
  induction p as [|c p IH]; [done|].
  change (String c (p +:+ a) = String c (p +:+ b) → a = b).
  intros [= H]. by apply IH.
Qed.

Lemma w2_key_inj i j : w2_key i = w2_key j → i = j.
Proof.
  unfold w2_key. intros H. apply append_inj_l in H.
  assert (Hs : ∀ n, split_dot (str_of_nat n +:+ ".w2") =
                    [str_of_nat n; "w2"]).
  { intros n. change ".w2" with (String "." "w2").
    by rewrite split_dot_app by apply string_of_uint_dot_free. }
  pose proof (Hs i) as Hi. rewrite H, Hs in Hi. injection Hi as Hi.
  apply (f_equal py_int) in Hi. rewrite !py_int_str_of_nat in Hi.
  injection Hi as Hi. lia.
Qed.

(** X5: two different experts never share a key of [input_feat]. *)
Theorem w2_key_distinct i j : i ≠ j → w2_key i ≠ w2_key j.
Proof. intros Hne H. by apply Hne, w2_key_inj. Qed.

Lemma w2_key_distinct_witness : w2_key 0 ≠ w2_key 1.
Proof. apply w2_key_distinct. lia. Defined.

(** ** What the getters return and raise *)

Lemma returns_only_bind {A B} (m : M A) (k : A → M B) Q :
  (∀ a, returns_only (k a) Q) → returns_only (bind m k) Q.
Proof.
  intros Hk h b h' H.
  apply bind_inv in H as [(a & h1 & _ & H)|(e & _ & ?)]; [|done].
  by eapply Hk.
Qed.

Lemma raises_only_bind {A B} (m : M A) (k : A → M B) P :
  raises_only m P → (∀ a, raises_only (k a) P) → raises_only (bind m k) P.
Proof.
  intros Hm Hk h e h' H.
  apply bind_inv in H as [(a & h1 & _ & H)|(e' & H & [= ->])].
  - by eapply Hk.
  - by eapply Hm.
Qed.

Lemma raises_only_ret {A} (a : A) P : raises_only (ret a) P.
Proof. by intros h e h' H. Qed.

Lemma raises_only_getattr v name : raises_only (getattr v name) lookup_error.
Proof.
  intros h e h'. rewrite getattr_run.
  destruct (attr h v name); intros [= <- _]. by left.
Qed.

Lemma raises_only_getpath v names : raises_only (getpath v names) lookup_error.
Proof.
  intros h e h'. rewrite getpath_run.
  destruct (path h v names); intros [= <- _]. by left.
Qed.

Lemma raises_only_getitem d key : raises_only (getitem d key) lookup_error.
Proof.
  intros h e h'. unfold getitem, item, lookup_error.
  repeat case_match; intros [= <- <-]; auto.
Qed.

Lemma raises_only_iter_items v : raises_only (iter_items v) lookup_error.
Proof.
  intros h e h'. unfold iter_items, elements, lookup_error.
  repeat case_match; intros [= <- <-]; auto.
Qed.

Lemma raises_only_if {A} (b : bool) (m1 m2 : M A) P :
  raises_only m1 P → raises_only m2 P → raises_only (if b then m1 else m2) P.
Proof. by destruct b. Qed.

Create HintDb raises_only.
#[local] Hint Resolve raises_only_ret raises_only_getattr raises_only_getpath
  raises_only_getitem raises_only_iter_items raises_only_if : raises_only.
#[local] Hint Extern 2 (raises_only (bind _ _) _) =>
  apply raises_only_bind; [|intros ?] : raises_only.

(** X6: when the version is rejected, [get_model_layers] raises the guard's
    error whatever the model is, and reads nothing of it. *)
Theorem get_model_layers_guard_first version e (model : value) (h : heap) :
  _transformers_version_check version = Raise e →
  get_model_layers version model h = (Raise e, h).
Proof.
  intros Hv. unfold get_model_layers. apply bind_raise.
  unfold lift. by rewrite Hv.
Qed.

Lemma get_model_layers_guard_first_witness :
  get_model_layers "4.36.2" VNone [] = (Raise (Exception message), []).
Proof. apply get_model_layers_guard_first. reflexivity. Defined.

(** X7: [get_moe_for_scaling] never changes the store; it raises nothing but
    [AttributeError], and when it returns, the module has a
    [block_sparse_moe] with [num_experts] and [hidden_dim] and the result
    is the record made of them. *)
Theorem get_moe_for_scaling_outcome (module : value) (h h' : heap)
    (r : result pydict) :
  get_moe_for_scaling module h = (r, h') →
  h' = h ∧
  (r = Raise AttributeError ∨
   ∃ moe num_experts hidden_dim,
     attr h module "block_sparse_moe" = Some moe ∧
     attr h moe "num_experts" = Some num_experts ∧
     attr h moe "hidden_dim" = Some hidden_dim ∧
     r = Ok [("scale_name", VStr "block_sparse_moe");
             ("scale_layer", moe);
             ("scale_shape", VTuple [num_experts; hidden_dim])]).
Proof.
  unfold get_moe_for_scaling, bind.
  rewrite getattr_run.
  destruct (attr h module "block_sparse_moe") as [moe|] eqn:Hmoe;
    [|intros [= <- <-]; auto].
  rewrite !getpath_run. cbn [path]. rewrite Hmoe.
  destruct (attr h moe "num_experts") as [ne|] eqn:Hne;
    [|intros [= <- <-]; auto].
  destruct (attr h moe "hidden_dim") as [hd|] eqn:Hhd;
    [|intros [= <- <-]; auto].
  intros [= <- <-]. split; [done|]. right. by exists moe, ne, hd.
Qed.

Lemma get_moe_for_scaling_outcome_witness :
  Sample.store = Sample.store ∧
  (Ok [("scale_name", VStr "block_sparse_moe"); ("scale_layer", VRef 11);
       ("scale_shape", VTuple [VInt 2; VInt 4096])] = Raise AttributeError ∨
   ∃ moe num_experts hidden_dim,
     attr Sample.store (VRef 6) "block_sparse_moe" = Some moe ∧
     attr Sample.store moe "num_experts" = Some num_experts ∧
     attr Sample.store moe "hidden_dim" = Some hidden_dim ∧
     Ok [("scale_name", VStr "block_sparse_moe"); ("scale_layer", VRef 11);
         ("scale_shape", VTuple [VInt 2; VInt 4096])] =
     Ok [("scale_name", VStr "block_sparse_moe");
         ("scale_layer", moe);
         ("scale_shape", VTuple [num_experts; hidden_dim])]).
Proof.
  apply (get_moe_for_scaling_outcome (VRef 6) Sample.store Sample.store).
  vm_compute. reflexivity.
Defined.

(** ** The shape of the result of [get_layers_for_scaling] *)

Lemma scale_w2_shape input_feat experts : ∀ i acc,
  returns_only (scale_w2 input_feat i experts acc)
    (λ ds, ∃ new, ds = acc ++ new ∧ length new = length experts ∧
                  Forall core_keys new).
Proof.
  induction experts as [|e experts IH]; intros i acc; cbn [scale_w2].
  - intros h ds h' [= <- _]. exists []. by rewrite app_nil_r.
  - do 3 (apply returns_only_bind; intros ?).
    intros h ds h' H. apply IH in H as (new & -> & Hlen & Hnew).
    eexists (_ :: new). rewrite <- app_assoc. split; [done|].
    split; [cbn; by rewrite Hlen|]. by constructor.
Qed.

Lemma attn_out_shape (module input_feat : value) (b : bool) (first : pydict) :
  returns_only
    (if b then
       let* prev_op := getpath module ["self_attn"; "v_proj"] in
       let* o_proj := getpath module ["self_attn"; "o_proj"] in
       let* inp := getitem input_feat "self_attn.o_proj" in
       ret (([] ++ [first]) ++
            [[("prev_op", prev_op); ("layers", VList [o_proj]); ("inp", inp)]])
     else ret ([] ++ [first]))
    (λ layers, ∃ tl, layers = first :: tl ∧ Forall core_keys tl).
Proof.
  destruct b.
  - do 3 (apply returns_only_bind; intros ?).
    intros h layers h' [= <- _]. eexists. split; [reflexivity|].
    by repeat constructor.
  - intros h layers h' [= <- _]. eexists. split; [reflexivity|]. constructor.
Qed.

Lemma moe_tail_shape (module input_feat : value) (layers : list pydict) :
  returns_only
    (let* prev_op := getattr module "block_sparse_moe" in
     let* experts := getpath module ["block_sparse_moe"; "experts"] in
     let* inp := getitem input_feat "block_sparse_moe" in
     let* module2inspect := getattr module "block_sparse_moe" in
     let* experts0 := getpath module ["block_sparse_moe"; "experts"] in
     let* items := iter_items experts0 in
     scale_w2 input_feat 0 items
       (layers ++
        [[("prev_op", prev_op); ("layers", experts); ("inp", inp);
          ("module2inspect", module2inspect)]]))
    (λ ds, ∃ d new, ds = layers ++ d :: new ∧ core_keys d ∧
                    Forall core_keys new).
Proof.
  do 6 (apply returns_only_bind; intros ?).
  intros h ds h' H. apply scale_w2_shape in H as (new & -> & _ & Hnew).
  eexists _, new. by rewrite <- app_assoc.
Qed.

(** X8: whenever [get_layers_for_scaling] returns, the list starts with the
    descriptor of the attention input, which has the five entries
    [prev_op], [layers], [inp], [module2inspect], [kwargs] with the caller's
    [module_kwargs] as the last; at least one more descriptor follows; and
    every descriptor starts with [prev_op], [layers], [inp]. *)
Theorem get_layers_for_scaling_shape (module input_feat module_kwargs : value)
    (h h' : heap) (ds : list pydict) :
  get_layers_for_scaling module input_feat module_kwargs h = (Ok ds, h') →
  ∃ first rest,
    ds = first :: rest ∧
    first.*1 = ["prev_op"; "layers"; "inp"; "module2inspect"; "kwargs"] ∧
    first !! 4 = Some ("kwargs", module_kwargs) ∧
    1 ≤ length rest ∧
    Forall core_keys ds.
Proof.
  revert h ds h'. unfold get_layers_for_scaling.
  change (returns_only (get_layers_for_scaling module input_feat module_kwargs)
    (λ ds, ∃ first rest,
      ds = first :: rest ∧
      first.*1 = ["prev_op"; "layers"; "inp"; "module2inspect"; "kwargs"] ∧
      first !! 4 = Some ("kwargs", module_kwargs) ∧
      1 ≤ length rest ∧ Forall core_keys ds)).
  unfold get_layers_for_scaling.
  do 8 (apply returns_only_bind; intros ?).
  intros h ds1 h' H.
  apply bind_inv in H as [(layers & h1 & E & H)|(e & _ & ?)]; [|done].
  apply attn_out_shape in E as Hl.
  destruct Hl as (tl & -> & Htl). clear E.
  apply moe_tail_shape in H as (d & new & -> & Hd & Hnew).
  eexists _, _. split; [reflexivity|]. split; [done|]. split; [done|].
  split.
  - rewrite length_app. cbn. lia.
  - constructor; [done|]. apply Forall_app. split; [done|]. by constructor.
Qed.

Lemma get_layers_for_scaling_shape_witness :
  ∃ first rest,
    [ [("prev_op", VRef 8); ("layers", VList [VRef 14; VRef 15; VRef 15]);
       ("inp", VRef 12); ("module2inspect", VRef 10); ("kwargs", VNone)];
      [("prev_op", VRef 11); ("layers", VRef 17); ("inp", VRef 19);
       ("module2inspect", VRef 11)];
      [("prev_op", VRef 15); ("layers", VList [VRef 14]); ("inp", VRef 4)];
      [("prev_op", VRef 14); ("layers", VList [VRef 15]); ("inp", VRef 5)] ] =
      first :: rest ∧
    first.*1 = ["prev_op"; "layers"; "inp"; "module2inspect"; "kwargs"] ∧
    first !! 4 = Some ("kwargs", VNone) ∧
    1 ≤ length rest ∧
    Forall core_keys
      [ [("prev_op", VRef 8); ("layers", VList [VRef 14; VRef 15; VRef 15]);
         ("inp", VRef 12); ("module2inspect", VRef 10); ("kwargs", VNone)];
        [("prev_op", VRef 11); ("layers", VRef 17); ("inp", VRef 19);
         ("module2inspect", VRef 11)];
        [("prev_op", VRef 15); ("layers", VList [VRef 14]); ("inp", VRef 4)];
        [("prev_op", VRef 14); ("layers", VList [VRef 15]); ("inp", VRef 5)] ].
Proof.
  apply (get_layers_for_scaling_shape (VRef 6) (VRef 22) VNone Sample.store
           Sample.store).
  vm_compute. reflexivity.
Defined.

Lemma scale_w2_raises input_feat experts : ∀ i acc,
  raises_only (scale_w2 input_feat i experts acc) lookup_error.
Proof.
  induction experts as [|e experts IH]; intros i acc; cbn [scale_w2];
    auto 10 with raises_only.
Qed.

(** X9: [get_layers_for_scaling] raises nothing but the errors of looking
    things up: a missing attribute, a missing key, or a value that is not a
    dictionary or cannot be iterated over. *)
Theorem get_layers_for_scaling_raises (module input_feat module_kwargs : value)
    (h h' : heap) (e : exn) :
  get_layers_for_scaling module input_feat module_kwargs h = (Raise e, h') →
  e = AttributeError ∨ e = KeyError ∨ e = TypeError.
Proof.
  revert h e h'.
  change (raises_only (get_layers_for_scaling module input_feat module_kwargs)
            lookup_error).
  pose proof scale_w2_raises.
  unfold get_layers_for_scaling. auto 30 with raises_only.
Qed.

Lemma get_layers_for_scaling_raises_witness :
  AttributeError = AttributeError ∨ AttributeError = KeyError ∨
  AttributeError = TypeError.
Proof.
  apply (get_layers_for_scaling_raises VNone VNone VNone [] []). reflexivity.
Defined.

Section MissingKey.

Variables (h : heap) (module input_feat module_kwargs : value).
Variables (input_layernorm self_attn q_proj k_proj v_proj o_proj : value).
Variables (v_shape o_shape inp_q : value).
Variables (l : nat) (entries : gmap string value).

Hypothesis H_ln : attr h module "input_layernorm" = Some input_layernorm.
Hypothesis H_attn : attr h module "self_attn" = Some self_attn.
Hypothesis H_q : attr h self_attn "q_proj" = Some q_proj.
Hypothesis H_k : attr h self_attn "k_proj" = Some k_proj.
Hypothesis H_v : attr h self_attn "v_proj" = Some v_proj.
Hypothesis H_o : attr h self_attn "o_proj" = Some o_proj.
Hypothesis H_v_shape : path h v_proj ["weight"; "shape"] = Some v_shape.
Hypothesis H_o_shape : path h o_proj ["weight"; "shape"] = Some o_shape.
Hypothesis H_feat : input_feat = VRef l.
Hypothesis H_dict : h !! l = Some (CDict entries).
Hypothesis H_inp_q : entries !! "self_attn.q_proj" = Some inp_q.
Hypothesis H_no_o : entries !! "self_attn.o_proj" = None.
Hypothesis H_equal : py_eq v_shape o_shape = true.

(** X10: when the shapes of [v_proj] and [o_proj] are equal, a feature
    dictionary without the key [self_attn.o_proj] makes
    [get_layers_for_scaling] raise [KeyError]. *)
Theorem get_layers_for_scaling_missing_o_proj :
  get_layers_for_scaling module input_feat module_kwargs h = (Raise KeyError, h).
Proof using All.
  unfold get_layers_for_scaling.
  assert (Hp : ∀ n x, attr h self_attn n = Some x →
                      path h module ["self_attn"; n] = Some x).
  { intros n x E. rewrite (path_cons _ _ _ _ _ H_attn). cbn. by rewrite E. }
  assert (Hs : ∀ n p s, attr h self_attn n = Some p →
                 path h p ["weight"; "shape"] = Some s →
                 path h module ["self_attn"; n; "weight"; "shape"] = Some s).
  { intros n p s E Es. rewrite (path_cons _ _ _ _ _ H_attn).
    by rewrite (path_cons _ _ _ _ _ E). }
  assert (Hi : item h input_feat "self_attn.q_proj" = Ok inp_q).
  { subst input_feat. cbn. by rewrite H_dict, H_inp_q. }
  assert (Hi' : item h input_feat "self_attn.o_proj" = Raise KeyError).
  { subst input_feat. cbn. by rewrite H_dict, H_no_o. }
  rewrite (bind_getattr _ _ _ _ _ H_ln).
  rewrite (bind_getpath _ _ _ _ _ (Hp _ _ H_q)),
    (bind_getpath _ _ _ _ _ (Hp _ _ H_k)),
    (bind_getpath _ _ _ _ _ (Hp _ _ H_v)).
  rewrite (bind_getitem _ _ _ _ _ Hi), (bind_getattr _ _ _ _ _ H_attn).
  rewrite (bind_getpath _ _ _ _ _ (Hs _ _ _ H_v H_v_shape)),
    (bind_getpath _ _ _ _ _ (Hs _ _ _ H_o H_o_shape)).
  rewrite H_equal. apply bind_raise.
  rewrite (bind_getpath _ _ _ _ _ (Hp _ _ H_v)),
    (bind_getpath _ _ _ _ _ (Hp _ _ H_o)).
  apply bind_raise. unfold getitem. by rewrite Hi'.
Qed.

End MissingKey.

Lemma get_layers_for_scaling_missing_o_proj_witness :
  get_layers_for_scaling (VRef 7) (VRef 24) VNone Sample.store_without_o_proj =
  (Raise KeyError, Sample.store_without_o_proj).
Proof.
  apply (get_layers_for_scaling_missing_o_proj Sample.store_without_o_proj (VRef 7)
           (VRef 24) VNone (VRef 8) (VRef 16) (VRef 14) (VRef 14) (VRef 14)
           (VRef 14) (VTuple [VInt 4096; VInt 4096])
           (VTuple [VInt 4096; VInt 4096]) (VRef 12) 24
           (list_to_map [("self_attn.q_proj", VRef 12)])).
  all: vm_compute; reflexivity.
Defined.

(** ** More on [fuse_transformer] *)

Section FuserOutcomes.

Variable state_dict_values : heap → value → result (list value).
Variable fuse_qkv : heap → value → value → value → value → cell.
Variable FasterTransformerRMSNorm : heap → value → value → cell.
Variable MixtralBlock : heap → pydict → cell.
Variable MixtralModel : heap → value → value → value → value → cell.

Local Abbreviation fuse_loop :=
  (MixtralFuser.fuse_loop state_dict_values fuse_qkv FasterTransformerRMSNorm
     MixtralBlock).
Local Abbreviation fuse_transformer :=
  (MixtralFuser.fuse_transformer state_dict_values fuse_qkv
     FasterTransformerRMSNorm MixtralBlock MixtralModel).

(** Either the call raises before line 143 and has only added objects, or
    it reaches line 143 and puts a new model in place. *)
Lemma fuse_transformer_outcome (h h' : heap) (self : value) (lm : nat)
    (am : gmap string value) (r : result unit) :
  attr h self "model" = Some (VRef lm) →
  self ≠ VRef lm →
  h !! lm = Some (CObject am) →
  fuse_transformer self h = (r, h') →
  (h `prefix_of` h' ∧ ∃ e, r = Raise e) ∨
  (∃ t hm v bs e n,
     h' = <[lm := CObject (<["model" := VRef (length (h ++ t))]> am)]>
            ((h ++ t) ++ [MixtralModel hm v bs e n]) ∧
     r = match blocks_attr (MixtralModel hm v bs e n) with
         | Some _ => Ok tt
         | None => Raise AttributeError
         end).
Proof.
  intros Hself Hne Hm H.
  unfold MixtralFuser.fuse_transformer in H.
  apply bind_inv_read in H as [(layers & _ & H)|(-> & e & ->)];
    [|left; eauto|auto with read_only].
  apply bind_inv_read in H as [(modules & _ & H)|(-> & e & ->)];
    [|left; eauto|auto with read_only].
  pose proof (fuse_loop_prefix state_dict_values fuse_qkv
                FasterTransformerRMSNorm MixtralBlock self modules [] h)
    as [t Ht].
  apply bind_inv in H as [(blocks & h1 & E & H)|(e & E & ->)];
    rewrite E in Ht; cbn in Ht; subst; [|left; split; [by exists t|eauto]].
  clear E.
  apply bind_inv_read in H as [(vocab_size & _ & H)|(-> & e & ->)];
    [|left; split; [by exists t|eauto]|auto with read_only].
  apply bind_inv_read in H as [(embed_tokens & _ & H)|(-> & e & ->)];
    [|left; split; [by exists t|eauto]|auto with read_only].
  apply bind_inv_read in H as [(norm & _ & H)|(-> & e & ->)];
    [|left; split; [by exists t|eauto]|auto with read_only].
  change (bind (MixtralFuser.construct ?new) ?k ?h) with
    (k (VRef (length h)) (h ++ [new h])) in H.
  cbv beta in H.
  rewrite (install_run (h ++ t) self lm am) in H;
    [|by apply attr_app|done|by apply lookup_app_l_Some].
  injection H as <- <-. right. by eexists t, _, _, _, _, _.
Qed.

(** X11: if the object that [MixtralModel] builds always has the attribute
    [blocks], a call of [fuse_transformer] that raises has changed no
    object: the model still has its old [model]. *)
Theorem fuse_transformer_failure_keeps_model (h h' : heap) (self : value)
    (lm : nat) (am : gmap string value) (e : exn) :
  (∀ hm v bs em n, is_Some (blocks_attr (MixtralModel hm v bs em n))) →
  attr h self "model" = Some (VRef lm) →
  self ≠ VRef lm →
  h !! lm = Some (CObject am) →
  fuse_transformer self h = (Raise e, h') →
  ∀ l c, h !! l = Some c → h' !! l = Some c.
Proof.
  intros Hb Hself Hne Hm H.
  apply (fuse_transformer_outcome _ _ _ _ _ _ Hself Hne Hm) in H
    as [[[t ->] _]|(t & hm & v & bs & em & n & _ & Hr)].
  - intros l c Hl. by apply lookup_app_l_Some.
  - destruct (Hb hm v bs em n) as [b Hb']. by rewrite Hb' in Hr.
Qed.

Section ModelAtHand.

Variables (h : heap) (self : value) (lm : nat) (am : gmap string value).
Variables (inner layers embed_tokens norm vocab_size : value).

Hypothesis H_self : attr h self "model" = Some (VRef lm).
Hypothesis H_distinct : self ≠ VRef lm.
Hypothesis H_model : h !! lm = Some (CObject am).
Hypothesis H_inner : am !! "model" = Some inner.
Hypothesis H_layers : attr h inner "layers" = Some layers.

Lemma self_model_path name x :
  attr h inner name = Some x → path h self ["model"; "model"; name] = Some x.
Proof using H_self H_model H_inner.
  intros E. rewrite (path_cons _ _ _ _ _ H_self).
  assert (Hin : attr h (VRef lm) "model" = Some inner).
  { cbn. by rewrite H_model. }
  rewrite (path_cons _ _ _ _ _ Hin). cbn. by rewrite E.
Qed.

(** X12: a model without decoder layers: nothing of [config] but [vocab_size]
    is read, one object is added to the store, and the fused model
    receives the empty list of blocks. *)
Theorem fuse_transformer_no_layers (blocks : value) :
  elements h layers = Ok [] →
  attr h inner "embed_tokens" = Some embed_tokens →
  attr h inner "norm" = Some norm →
  path h self ["model"; "config"; "vocab_size"] = Some vocab_size →
  blocks_attr (MixtralModel h vocab_size (VList []) embed_tokens norm) =
    Some blocks →
  fuse_transformer self h =
  (Ok tt,
   <[lm := CObject (<["model" := VRef (length h)]> am)]>
     (h ++ [MixtralModel h vocab_size (VList []) embed_tokens norm])).
Proof using H_self H_distinct H_model H_inner H_layers.
  intros Hel Hembed Hnorm Hvocab Hblocks.
  unfold MixtralFuser.fuse_transformer.
  rewrite (bind_getpath _ _ _ _ _ (self_model_path _ _ H_layers)).
  rewrite (bind_iter_items _ _ _ _ Hel).
  cbn [MixtralFuser.fuse_loop]. rewrite (bind_ok _ _ h [] h) by done.
  rewrite (bind_getpath _ _ _ _ _ Hvocab).
  rewrite (bind_getpath _ _ _ _ _ (self_model_path _ _ Hembed)).
  rewrite (bind_getpath _ _ _ _ _ (self_model_path _ _ Hnorm)).
  rewrite bind_construct.
  rewrite (install_run h self lm am) by done. by rewrite Hblocks.
Qed.

(** X13: a decoder layer whose [state_dict] is empty makes [fuse_transformer]
    raise [StopIteration]; when it is the first layer, the store is left
    as it was. *)
Theorem fuse_transformer_empty_state_dict (module : value)
    (rest : list value) :
  elements h layers = Ok (module :: rest) →
  state_dict_values h module = Ok [] →
  fuse_transformer self h = (Raise StopIteration, h).
Proof using H_self H_model H_inner H_layers.
  intros Hel Hsd. unfold MixtralFuser.fuse_transformer.
  rewrite (bind_getpath _ _ _ _ _ (self_model_path _ _ H_layers)).
  rewrite (bind_iter_items _ _ _ _ Hel).
  apply bind_raise. cbn [MixtralFuser.fuse_loop]. apply bind_raise.
  unfold MixtralFuser.fuse_layer.
  rewrite (bind_ok _ _ h [] h) by (by rewrite Hsd).
  done.
Qed.

End ModelAtHand.



Section Counting.

Variables (h : heap) (self : value) (lm : nat) (am : gmap string value).
Variables (inner layers embed_tokens norm vocab_size : value).
Variables (modules : list value) (ps : list layer_parts) (c : config_parts).

Hypothesis state_dict_stable : ∀ h t module tensors,
  state_dict_values h module = Ok tensors →
  state_dict_values (h ++ t) module = Ok tensors.
Hypothesis H_self : attr h self "model" = Some (VRef lm).
Hypothesis H_distinct : self ≠ VRef lm.
Hypothesis H_model : h !! lm = Some (CObject am).
Hypothesis H_inner : am !! "model" = Some inner.
Hypothesis H_layers : attr h inner "layers" = Some layers.
Hypothesis H_modules : elements h layers = Ok modules.
Hypothesis H_embed : attr h inner "embed_tokens" = Some embed_tokens.
Hypothesis H_norm : attr h inner "norm" = Some norm.
Hypothesis H_vocab :
  path h self ["model"; "config"; "vocab_size"] = Some vocab_size.
Hypothesis H_config : config_at h self c.
Hypothesis H_parts : Forall2 (layer_at state_dict_values h) modules ps.
Hypothesis H_blocks : ∀ hm v bs e n,
  is_Some (blocks_attr (MixtralModel hm v bs e n)).


End Counting.

End FuserOutcomes.

Lemma fuse_transformer_failure_keeps_model_witness :
  Sample.store !! 0 =
  Some (CObject (list_to_map [("model", VRef 1); ("config", VRef 2)])).
Proof.
  apply (fuse_transformer_failure_keeps_model SampleFuser.no_state
           SampleFuser.fuse_qkv SampleFuser.FasterTransformerRMSNorm
           SampleFuser.MixtralBlock SampleFuser.MixtralModel
           Sample.store Sample.store (VRef 23) 0
           (list_to_map [("model", VRef 1); ("config", VRef 2)])
           StopIteration).
  - intros hm v bs em n. vm_compute. by eexists.
  - vm_compute; reflexivity.
  - discriminate.
  - vm_compute; reflexivity.
  - vm_compute; reflexivity.
  - vm_compute; reflexivity.
Defined.

Lemma fuse_transformer_no_layers_witness :
  MixtralFuser.fuse_transformer SampleFuser.state_dict_values
    SampleFuser.fuse_qkv SampleFuser.FasterTransformerRMSNorm
    SampleFuser.MixtralBlock SampleFuser.MixtralModel (VRef 23)
    Sample.store_no_layers =
  (Ok tt,
   <[0 := CObject (<["model" := VRef (length Sample.store_no_layers)]>
                     (list_to_map [("model", VRef 1); ("config", VRef 2)]))]>
     (Sample.store_no_layers ++
      [SampleFuser.MixtralModel Sample.store_no_layers (VInt 32000) (VList [])
         (VRef 4) (VRef 5)])).
Proof.
  apply (fuse_transformer_no_layers SampleFuser.state_dict_values
           SampleFuser.fuse_qkv SampleFuser.FasterTransformerRMSNorm
           SampleFuser.MixtralBlock SampleFuser.MixtralModel
           Sample.store_no_layers (VRef 23) 0
           (list_to_map [("model", VRef 1); ("config", VRef 2)])
           (VRef 1) (VRef 3) (VRef 4) (VRef 5) (VInt 32000))
    with (blocks := VList []).
  - vm_compute; reflexivity.
  - discriminate.
  - vm_compute; reflexivity.
  - vm_compute; reflexivity.
  - vm_compute; reflexivity.
  - vm_compute; reflexivity.
  - vm_compute; reflexivity.
  - vm_compute; reflexivity.
  - vm_compute; reflexivity.
  - vm_compute; reflexivity.
Defined.

Lemma fuse_transformer_empty_state_dict_witness :
  MixtralFuser.fuse_transformer SampleFuser.no_state SampleFuser.fuse_qkv
    SampleFuser.FasterTransformerRMSNorm SampleFuser.MixtralBlock
    SampleFuser.MixtralModel (VRef 23) Sample.store =
  (Raise StopIteration, Sample.store).
Proof.
  apply (fuse_transformer_empty_state_dict SampleFuser.no_state
           SampleFuser.fuse_qkv SampleFuser.FasterTransformerRMSNorm
           SampleFuser.MixtralBlock SampleFuser.MixtralModel
           Sample.store (VRef 23) 0
           (list_to_map [("model", VRef 1); ("config", VRef 2)])
           (VRef 1) (VRef 3)) with (module := VRef 6) (rest := [VRef 7]).
  - vm_compute; reflexivity.
  - vm_compute; reflexivity.
  - vm_compute; reflexivity.
  - vm_compute; reflexivity.
  - vm_compute; reflexivity.
  - vm_compute; reflexivity.
Defined.


(** ** [move_embed] *)

Section MoveEmbed.

Variable module_to : value → value → M value.

(** X15: when [model.model.embed_tokens.to(device)] returns [moved] and
    [model.model] is then the object at [li], [move_embed] stores [moved]
    under [embed_tokens] of that object and changes nothing else of what
    [to] left. *)
Theorem move_embed_assigns (h h1 : heap) (model device embed_tokens moved
    : value) (li : nat) (ai : gmap string value) :
  path h model ["model"; "embed_tokens"] = Some embed_tokens →
  module_to embed_tokens device h = (Ok moved, h1) →
  attr h1 model "model" = Some (VRef li) →
  h1 !! li = Some (CObject ai) →
  ∃ h',
    move_embed module_to model device h = (Ok tt, h') ∧
    path h' model ["model"; "embed_tokens"] = Some moved ∧
    length h' = length h1 ∧
    (∀ l, l ≠ li → h' !! l = h1 !! l) ∧
    (∀ k, k ≠ "embed_tokens" → attr h' (VRef li) k = attr h1 (VRef li) k).
Proof.
  intros Hpath Hto Htarget Hli.
  assert (Hlt : li < length h1) by (by eapply lookup_lt_Some).
  eexists. split.
  { unfold move_embed. rewrite (bind_getpath _ _ _ _ _ Hpath).
    rewrite (bind_ok _ _ _ _ _ Hto). rewrite (bind_getattr _ _ _ _ _ Htarget).
    unfold setattr. by rewrite Hli. }
  split; [|split; [by rewrite length_insert|split]].
  - destruct (attr_ref _ _ _ _ Htarget) as (lm & -> & Hlm).
    assert (Hm : attr (<[li := CObject (<["embed_tokens" := moved]> ai)]> h1)
                   (VRef lm) "model" = Some (VRef li)).
    { destruct (decide (li = lm)) as [->|Hne].
      - rewrite attr_insert_eq by done. rewrite lookup_insert_ne by done.
        cbn in Htarget. by rewrite Hli in Htarget.
      - by rewrite attr_insert_ne. }
    rewrite (path_cons _ _ _ _ _ Hm). cbn.
    rewrite list_lookup_insert_eq by done. by rewrite lookup_insert_eq.
  - intros l Hl. by rewrite list_lookup_insert_ne.
  - intros k Hk. rewrite attr_insert_eq by done.
    rewrite lookup_insert_ne by done. cbn. by rewrite Hli.
Qed.

(** X16: when [move_embed] raises, nothing has been assigned: the store is the
    one it started from, or the one that [to] left. *)
Theorem move_embed_failure (h h' : heap) (model device : value) (e : exn) :
  move_embed module_to model device h = (Raise e, h') →
  (h' = h ∧ e = AttributeError ∧
   path h model ["model"; "embed_tokens"] = None) ∨
  ∃ embed_tokens r,
    path h model ["model"; "embed_tokens"] = Some embed_tokens ∧
    module_to embed_tokens device h = (r, h') ∧
    (r = Raise e ∨ e = AttributeError).
Proof.
  unfold move_embed. intros H.
  apply bind_inv in H as [(embed & h0 & E & H)|(x & E & [= ->])];
    rewrite getpath_run in E;
    destruct (path h model ["model"; "embed_tokens"]) as [v|] eqn:Hp;
    try discriminate; injection E as <- <-; [|by left].
  right. exists v.
  apply bind_inv in H as [(moved & h1 & E & H)|(x & E & [= ->])];
    [|exists (Raise x); auto].
  exists (Ok moved).
  apply bind_inv in H as [(target & h2 & E2 & H)|(x & E2 & [= ->])];
    rewrite getattr_run in E2; destruct (attr h1 model "model");
    try discriminate; injection E2 as <- <-; [|by auto].
  unfold setattr in H. repeat case_match; try discriminate;
    injection H as <- <-; auto.
Qed.

End MoveEmbed.

Lemma move_embed_assigns_witness :
  ∃ h',
    move_embed SampleFuser.module_to (VRef 0) (VStr "cuda:0") Sample.store =
      (Ok tt, h') ∧
    path h' (VRef 0) ["model"; "embed_tokens"] = Some (VRef 4) ∧
    length h' = length Sample.store ∧
    (∀ l, l ≠ 1 → h' !! l = Sample.store !! l) ∧
    (∀ k, k ≠ "embed_tokens" →
          attr h' (VRef 1) k = attr Sample.store (VRef 1) k).
Proof.
  apply (move_embed_assigns SampleFuser.module_to Sample.store Sample.store
           (VRef 0) (VStr "cuda:0") (VRef 4) (VRef 4) 1
           (list_to_map [("layers", VRef 3); ("embed_tokens", VRef 4);
                         ("norm", VRef 5)])).
  - vm_compute; reflexivity.
  - reflexivity.
  - vm_compute; reflexivity.
  - vm_compute; reflexivity.
Defined.

Lemma move_embed_failure_witness :
  ([] = ([] : heap) ∧ AttributeError = AttributeError ∧
   path [] VNone ["model"; "embed_tokens"] = None) ∨
  ∃ embed_tokens r,
    path [] VNone ["model"; "embed_tokens"] = Some embed_tokens ∧
    SampleFuser.module_to embed_tokens (VStr "cuda:0") [] = (r, []) ∧
    (r = Raise AttributeError ∨ AttributeError = AttributeError).
Proof.
  apply (move_embed_failure SampleFuser.module_to [] [] VNone (VStr "cuda:0")).
  reflexivity.
Defined.

(** ** Which modules the fuser records *)

Lemma prefix_spec p s : String.prefix p s = true ↔ ∃ post, s = p +:+ post.
Proof.
  revert s. induction p as [|c p IH]; intros s.
  - split; [intros _; by exists s|by destruct s].
  - destruct s as [|d s]; cbn [String.prefix].
    + split; [done|]. by intros [post [=]].
    + destruct (ascii_dec c d) as [->|Hne].
      * rewrite IH. split; intros [post Hpost]; exists post.
        -- by rewrite Hpost.
        -- by injection Hpost.
      * split; [done|]. intros [post [= ? _]]. congruence.
Qed.

Lemma py_in_spec p s :
  py_in p s = true ↔ ∃ pre post, s = pre +:+ p +:+ post.
Proof.
  induction s as [|c s IH]; cbn [py_in]; rewrite orb_true_iff, prefix_spec.
  - split.
    + intros [[post Hpost]|?]; [|done]. by exists "", post.
    + intros ([|d pre] & post & Hs); [|done]. left. by exists post.
  - rewrite IH. split.
    + intros [[post Hpost]|(pre & post & ->)].
      * by exists "", post.
      * by exists (String c pre), post.
    + intros ([|d pre] & post & Hs).
      * left. by exists post.
      * right. injection Hs as -> ->. by exists pre, post.
Qed.

Lemma py_lower_app a b : py_lower (a +:+ b) = py_lower a +:+ py_lower b.
Proof.
  induction a as [|c a IH]; [done|].
  change (String c a +:+ b) with (String c (a +:+ b)).
  cbn [py_lower]. by rewrite IH.
Qed.

Lemma py_lower_app_inv a : ∀ s b,
  py_lower s = a +:+ b →
  ∃ a' b', s = a' +:+ b' ∧ py_lower a' = a ∧ py_lower b' = b.
Proof.
  induction a as [|c a IH]; intros s b H.
  - by exists "", s.
  - destruct s as [|d s]; [done|].
    change (String (py_lower_char d) (py_lower s) = String c (a +:+ b)) in H.
    injection H as Hc H. apply IH in H as (a' & b' & -> & <- & <-).
    exists (String d a'), b'. by rewrite <- Hc.
Qed.

Section FuserConstruction.

Variable state_dict_values : heap → value → result (list value).
Variable fuse_qkv : heap → value → value → value → value → cell.
Variable FasterTransformerRMSNorm : heap → value → value → cell.
Variable MixtralBlock : heap → pydict → cell.
Variable MixtralModel : heap → value → value → value → value → cell.
Variable named_modules : heap → value → result (list (string * value)).
Variable class_name : heap → value → string.

Local Abbreviation new_fuser := (MixtralFuser.new named_modules class_name).
Local Abbreviation fuse_layers :=
  (MixtralFuser.fuse_layers state_dict_values fuse_qkv
     FasterTransformerRMSNorm MixtralBlock MixtralModel named_modules
     class_name).

(** X17: line 106 keeps a module exactly when its class name contains
    [MixtralDecoderLayer] written in any mix of upper and lower case. *)
Theorem is_decoder_layer_iff (h : heap) (module : value) :
  MixtralFuser.is_decoder_layer class_name h module = true ↔
  ∃ pre mid post,
    class_name h module = pre +:+ mid +:+ post ∧
    py_lower mid = "mixtraldecoderlayer".
Proof.
  unfold MixtralFuser.is_decoder_layer. rewrite py_in_spec.
  change (py_lower "MixtralDecoderLayer") with "mixtraldecoderlayer".
  split.
  - intros (pre & post & H).
    apply py_lower_app_inv in H as (pre' & rest & Hc & _ & H).
    apply py_lower_app_inv in H as (mid & post' & -> & Hmid & _).
    by exists pre', mid, post'.
  - intros (pre & mid & post & -> & Hmid).
    exists (py_lower pre), (py_lower post).
    by rewrite !py_lower_app, Hmid.
Qed.

(** What [__init__] does to an object [self] of the store. *)
Lemma init_run (n : nat) (a : gmap string value) (model : value) (h : heap) :
  h !! n = Some (CObject a) →
  let h1 := <[n := CObject (<["model" := model]> a)]> h in
  MixtralFuser.__init__ named_modules class_name (VRef n) model h =
  match named_modules h1 model with
  | Ok named =>
      (Ok tt,
       <[n := CObject (<["mixtral_blocks" :=
                          VList (MixtralFuser.select_blocks class_name h1 named)]>
                        (<["model" := model]> a))]> h)
  | Raise e => (Raise e, h1)
  end.
Proof.
  intros Hn h1. unfold MixtralFuser.__init__.
  assert (Hlt : n < length h) by (by eapply lookup_lt_Some).
  rewrite (bind_ok _ _ h tt h1) by (unfold setattr; by rewrite Hn).
  assert (Hself : attr h1 (VRef n) "model" = Some model).
  { unfold h1. rewrite attr_insert_eq by done. by rewrite lookup_insert_eq. }
  rewrite (bind_getattr _ _ _ _ _ Hself).
  unfold bind at 1. destruct (named_modules h1 model) as [named|e]; [|done].
  unfold bind, setattr, h1. rewrite list_lookup_insert_eq by done.
  by rewrite list_insert_insert_eq.
Qed.

(** What [MixtralFuser(model)] does to a store [h]. *)
Lemma new_run (model : value) (h : heap) :
  let h1 := h ++ [CObject (<["model" := model]> ∅)] in
  new_fuser model h =
  match named_modules h1 model with
  | Ok named =>
      (Ok (VRef (length h)),
       h ++ [CObject (<["mixtral_blocks" :=
                          VList (MixtralFuser.select_blocks class_name h1 named)]>
                        (<["model" := model]> ∅))])
  | Raise e => (Raise e, h1)
  end.
Proof.
  intros h1. unfold MixtralFuser.new.
  rewrite (bind_ok _ _ h (VRef (length h)) (h ++ [CObject ∅])) by done.
  assert (Hins : ∀ (c c' : cell), <[length h := c']> (h ++ [c]) = h ++ [c']).
  { intros c c'. rewrite insert_app_r_alt by lia.
    by rewrite Nat.sub_diag. }
  unfold bind.
  rewrite (init_run (length h) ∅ model (h ++ [CObject ∅]))
    by (by apply list_lookup_middle).
  rewrite !Hins. fold h1.
  destruct (named_modules h1 model) as [named|e]; [|done].
  by rewrite Hins.
Qed.

(** X18: making a fuser adds one object to the store and changes none; when it
    returns, the result is that new object, its [model] is the argument
    and its [mixtral_blocks] is a list. *)
Theorem new_fuser_fresh (model : value) (h h' : heap) (r : result value) :
  new_fuser model h = (r, h') →
  (∀ l c, h !! l = Some c → h' !! l = Some c) ∧
  length h' = length h + 1 ∧
  ∀ fuser, r = Ok fuser →
    fuser = VRef (length h) ∧
    attr h' fuser "model" = Some model ∧
    ∃ blocks, attr h' fuser "mixtral_blocks" = Some (VList blocks).
Proof.
  rewrite new_run. cbv zeta.
  destruct (named_modules _ model) as [named|e]; intros [= <- <-].
  - split; [intros l c Hl; by apply lookup_app_l_Some|].
    split; [rewrite length_app; cbn; lia|].
    intros fuser [= <-]. split; [done|]. cbn. rewrite list_lookup_middle by done.
    rewrite lookup_insert_ne by done. rewrite !lookup_insert_eq. eauto.
  - split; [intros l c Hl; by apply lookup_app_l_Some|].
    split; [rewrite length_app; cbn; lia|]. done.
Qed.

(** X19: [fuse_layers] on a model: whatever the outcome, the objects that
    existed before the call are unchanged, except that the model may have
    a new [model]; when the call returns, it has one, an object made
    during the call. *)
Theorem fuse_layers_frame (h h' : heap) (lm : nat) (am : gmap string value)
    (r : result unit) :
  h !! lm = Some (CObject am) →
  fuse_layers (VRef lm) h = (r, h') →
  (∀ l, l < length h → l ≠ lm → h' !! l = h !! l) ∧
  ∃ am', h' !! lm = Some (CObject am') ∧
         (∀ k, k ≠ "model" → am' !! k = am !! k) ∧
         (r = Ok tt →
          ∃ new, length h < new ∧ am' !! "model" = Some (VRef new)).
Proof.
  intros Hm H.
  assert (Hlm : lm < length h) by (by eapply lookup_lt_Some).
  assert (Hsame : ∀ t e,
    (∀ l, l < length h → l ≠ lm → (h ++ t) !! l = h !! l) ∧
    ∃ am', (h ++ t) !! lm = Some (CObject am') ∧
           (∀ k, k ≠ "model" → am' !! k = am !! k) ∧
           (Raise e = Ok tt →
            ∃ new, length h < new ∧ am' !! "model" = Some (VRef new))).
  { intros t e. split; [intros l Hl _; by apply lookup_app_l|].
    exists am. split; [by apply lookup_app_l_Some|]. done. }
  unfold MixtralFuser.fuse_layers in H.
  apply bind_inv in H as [(fuser & h1 & E & H)|(e & E & ->)];
    rewrite new_run in E; cbv zeta in E;
    destruct (named_modules _ (VRef lm)) as [named|e'];
    try discriminate; injection E as <- <-; [|apply Hsame].
  set (fc := CObject _) in H.
  eapply (fuse_transformer_outcome _ _ _ _ _ (h ++ [fc]) h'
            (VRef (length h)) lm am) in H.
  - destruct H as [[[t ->] [e ->]]|(t & hm & v & bs & e & n & -> & ->)].
    + rewrite <- app_assoc. apply Hsame.
    + split.
      * intros l Hl Hne. rewrite list_lookup_insert_ne by done.
        rewrite <- !app_assoc. by apply lookup_app_l.
      * eexists. split.
        { apply list_lookup_insert_eq. rewrite !length_app. lia. }
        split; [intros k Hk; by rewrite lookup_insert_ne|].
        intros _. eexists. split; [|by rewrite lookup_insert_eq].
        rewrite !length_app. cbn. lia.
  - cbn. rewrite list_lookup_middle by done. unfold fc.
    rewrite lookup_insert_ne by done. by rewrite lookup_insert_eq.
  - intros [= ?]. lia.
  - by apply lookup_app_l_Some.
Qed.

End FuserConstruction.

Lemma new_fuser_fresh_witness :
  let h' :=
    (MixtralFuser.new SampleFuser.named_modules SampleFuser.class_name
       (VRef 0) Sample.store).2 in
  (∀ l c, Sample.store !! l = Some c → h' !! l = Some c) ∧
  length h' = length Sample.store + 1 ∧
  ∀ fuser, Ok (VRef 24) = Ok fuser →
    fuser = VRef (length Sample.store) ∧
    attr h' fuser "model" = Some (VRef 0) ∧
    ∃ blocks, attr h' fuser "mixtral_blocks" = Some (VList blocks).
Proof.
  apply (new_fuser_fresh SampleFuser.named_modules SampleFuser.class_name
           (VRef 0) Sample.store
           (MixtralFuser.new SampleFuser.named_modules SampleFuser.class_name
              (VRef 0) Sample.store).2
           (Ok (VRef 24))).
  vm_compute; reflexivity.
Defined.

Lemma fuse_layers_frame_witness :
  let h' :=
    (MixtralFuser.fuse_layers SampleFuser.state_dict_values
       SampleFuser.fuse_qkv SampleFuser.FasterTransformerRMSNorm
       SampleFuser.MixtralBlock SampleFuser.MixtralModel
       SampleFuser.named_modules SampleFuser.class_name (VRef 0)
       Sample.store).2 in
  (∀ l, l < length Sample.store → l ≠ 0 → h' !! l = Sample.store !! l) ∧
  ∃ am', h' !! 0 = Some (CObject am') ∧
         (∀ k, k ≠ "model" →
               am' !! k =
               (list_to_map [("model", VRef 1); ("config", VRef 2)]
                  : gmap string value) !! k) ∧
         (Ok tt = Ok tt →
          ∃ new, length Sample.store < new ∧ am' !! "model" = Some (VRef new)).
Proof.
  apply (fuse_layers_frame SampleFuser.state_dict_values
           SampleFuser.fuse_qkv SampleFuser.FasterTransformerRMSNorm
           SampleFuser.MixtralBlock SampleFuser.MixtralModel
           SampleFuser.named_modules SampleFuser.class_name Sample.store
           (MixtralFuser.fuse_layers SampleFuser.state_dict_values
              SampleFuser.fuse_qkv SampleFuser.FasterTransformerRMSNorm
              SampleFuser.MixtralBlock SampleFuser.MixtralModel
              SampleFuser.named_modules SampleFuser.class_name (VRef 0)
              Sample.store).2
           0 (list_to_map [("model", VRef 1); ("config", VRef 2)]) (Ok tt)).
  - vm_compute; reflexivity.
  - vm_compute; reflexivity.
Defined.
